(** * Local Assistant Probe: a shallow embedding of [probe.py]

    The development follows [local_assistant_probe/probe.py] function by
    function.  Python text ([str]) is a Rocq [string] holding its UTF-8
    encoding (ASCII text is itself), Python [bytes] a list of [byte]s,
    Python [int] is [Z].  The values produced by [json.loads] are the
    inductive type [value].  The standard library functions the
    module calls ([str.lower], [bytes.decode], [json.loads], [json.dumps],
    [repr]) and the network behind [urllib.request.urlopen] are interfaces
    ([PyRuntime], [Network]); every theorem holds for all their
    implementations, and a small concrete implementation is given at the end
    of the definitions to run the functions on sample inputs. *)

From Stdlib Require Import List String Ascii ZArith Bool.
From Stdlib Require Import Init.Byte.
From Stdlib Require Import DecimalString.
Import ListNotations.
Local Open Scope string_scope.
Local Open Scope Z_scope.

Set Implicit Arguments.
Set Warnings "-register-all".
Set Warnings "-automation".

(** ** Python values *)

Definition bytes := list byte.

(** The objects [json.loads] builds.  A float is kept as the literal it was
    read from; a dict is the list of its items in insertion order. *)
Inductive value : Type :=
| VNone
| VBool (b : bool)
| VInt (n : Z)
| VFloat (literal : string)
| VStr (s : string)
| VList (items : list value)
| VDict (items : list (string * value)).

(** The exceptions that can leave the functions of the module: those
    [urlopen] and [read] raise other than [HTTPError], and those
    [json.loads] raises other than [json.JSONDecodeError] ([RecursionError]
    on nesting beyond the interpreter's recursion limit, [ValueError] on an
    integer literal beyond its digit limit). *)
Inductive exn : Type :=
| URLError (reason : string)
| TimeoutError
| InvalidURL (url : string)
| RecursionError
| ValueError (msg : string).

(** How a call ends: it returns a value, or an exception leaves it. *)
Inductive outcome (A : Type) : Type :=
| Returned (a : A)
| Raised (e : exn).
Arguments Raised {A} e.

(** The results of [json.loads]: a value, [json.JSONDecodeError], or
    another exception. *)
Inductive loads_result : Type :=
| Loaded (v : value)
| JSONDecodeError
| LoadsRaised (e : exn).

(** Standard library functions used by the module. *)
Class PyRuntime : Type := {
  str_lower : string -> string;              (* str.lower() *)
  str_repr : string -> string;               (* repr(s) for a str *)
  float_repr : string -> string;             (* repr(x) for a float *)
  float_is_zero : string -> bool;            (* x == 0.0 for a float *)
  utf8_decode_replace : bytes -> string;     (* b.decode("utf-8", errors="replace") *)
  json_loads : string -> loads_result;       (* json.loads(s) *)
  json_dumps : value -> string;              (* json.dumps(obj) *)
  decode_empty : utf8_decode_replace [] = EmptyString;
  loads_empty : json_loads EmptyString = JSONDecodeError
}.

(** [str(n)] for an int. *)
Definition str_of_int (n : Z) : string := NilZero.string_of_int (Z.to_int n).

(** [sep.join(parts)]. *)
Fixpoint str_join (sep : string) (parts : list string) : string :=
  match parts with
  | [] => EmptyString
  | [p] => p
  | p :: rest => p ++ sep ++ str_join sep rest
  end.

Section Values.
Context {RT : PyRuntime}.

(** [repr(v)]. *)
Fixpoint py_repr (v : value) : string :=
  match v with
  | VNone => "None"
  | VBool true => "True"
  | VBool false => "False"
  | VInt n => str_of_int n
  | VFloat l => float_repr l
  | VStr s => str_repr s
  | VList items => "[" ++ str_join ", " (map py_repr items) ++ "]"
  | VDict items =>
      "{" ++ str_join ", "
               (map (fun kv => str_repr (fst kv) ++ ": " ++ py_repr (snd kv)) items)
          ++ "}"
  end.

(** [str(v)]: the text itself for a str, [repr] otherwise. *)
Definition py_str (v : value) : string :=
  match v with
  | VStr s => s
  | _ => py_repr v
  end.

(** Truth value of an object, as tested by [or], [not] and [if]. *)
Definition truthy (v : value) : bool :=
  match v with
  | VNone => false
  | VBool b => b
  | VInt n => negb (n =? 0)
  | VFloat l => negb (float_is_zero l)
  | VStr s => negb (s =? EmptyString)%string
  | VList items => match items with [] => false | _ => true end
  | VDict items => match items with [] => false | _ => true end
  end.

(** [a or b]. *)
Definition py_or (a b : value) : value := if truthy a then a else b.

End Values.

(** ** Dicts *)

Section Dict.
Variable V : Type.

(** [d.get(k)] as an option, and [k in d]. *)
Fixpoint dict_lookup (k : string) (d : list (string * V)) : option V :=
  match d with
  | [] => None
  | (k', v) :: rest => if (k' =? k)%string then Some v else dict_lookup k rest
  end.

Definition dict_mem (k : string) (d : list (string * V)) : bool :=
  match dict_lookup k d with Some _ => true | None => false end.

(** [d[k] = v]: an existing key keeps its position, a new key goes last. *)
Fixpoint dict_set (k : string) (v : V) (d : list (string * V)) : list (string * V) :=
  match d with
  | [] => [(k, v)]
  | (k', v') :: rest =>
      if (k' =? k)%string then (k', v) :: rest else (k', v') :: dict_set k v rest
  end.

End Dict.

(** [x.get(k)]: the value stored under [k], else [None]. *)
Definition dict_get (k : string) (d : list (string * value)) : value :=
  match dict_lookup k d with Some v => v | None => VNone end.

(** ** String helpers *)

(** [s.startswith(p)]. *)
Fixpoint startswith (s p : string) {struct p} : bool :=
  match p, s with
  | EmptyString, _ => true
  | String c p', String d s' => (Ascii.eqb c d) && startswith s' p'
  | String _ _, EmptyString => false
  end.

(** [needle in hay] for two strs. *)
Fixpoint str_contains (needle hay : string) : bool :=
  startswith hay needle ||
  match hay with
  | EmptyString => false
  | String _ rest => str_contains needle rest
  end.

(** [s.replace(c, new)] for a one-character [c]. *)
Fixpoint replace_char (c : ascii) (new : string) (s : string) : string :=
  match s with
  | EmptyString => EmptyString
  | String d rest =>
      if Ascii.eqb d c then new ++ replace_char c new rest
      else String d (replace_char c new rest)
  end.

Definition dquote : ascii := "034"%char.
Definition backslash : ascii := "092"%char.
Definition newline_str : string := String "010"%char EmptyString.
Definition dquote_str : string := String dquote EmptyString.
Definition backslash_str : string := String backslash EmptyString.

(** [s.endswith("/")] and [s[:-1]]. *)
Fixpoint ends_with_slash (s : string) : bool :=
  match s with
  | EmptyString => false
  | String c EmptyString => Ascii.eqb c "/"%char
  | String _ rest => ends_with_slash rest
  end.

Fixpoint drop_last (s : string) : string :=
  match s with
  | EmptyString => EmptyString
  | String _ EmptyString => EmptyString
  | String c rest => String c (drop_last rest)
  end.

(** ** Data classes *)

Record ProbeResult : Type := mkProbeResult {
  api_base : string;
  model : string;
  use_legacy_completions_endpoint : bool
}.

Record HttpResponse : Type := mkHttpResponse {
  status : Z;
  headers : list (string * string);
  body : bytes
}.

Definition DEFAULT_CONTEXT : list (list (string * string)) :=
  [ [("provider", "code")];
    [("provider", "docs")];
    [("provider", "diff")];
    [("provider", "terminal")];
    [("provider", "problems")];
    [("provider", "folder")];
    [("provider", "codebase")] ].

(** ** Pure helpers of the module *)

Definition _join (base path : string) : string :=
  let base2 := if ends_with_slash base then drop_last base else base in
  let path2 := if startswith path "/" then path else "/" ++ path in
  base2 ++ path2.

Definition _auth_headers (api_key : string) : list (string * string) :=
  [("Authorization", "Bearer " ++ api_key); ("Content-Type", "application/json")].

Definition _candidate_api_bases (host : string) (port : Z) : list string :=
  let root := "http://" ++ host ++ ":" ++ str_of_int port in
  [ root ++ "/api";
    root ++ "/v1";
    root ++ "/api/openai/v1";
    root ++ "/api/openai/v1";
    root ].

Section PureHelpers.
Context {RT : PyRuntime}.

(** Only [json.JSONDecodeError] is caught; any other exception of
    [json.loads] leaves the function. *)
Definition _try_json (resp : HttpResponse) : outcome value :=
  match body resp with
  | [] => Returned VNone
  | _ =>
      match json_loads (utf8_decode_replace (body resp)) with
      | Loaded v => Returned v
      | JSONDecodeError => Returned VNone
      | LoadsRaised e => Raised e
      end
  end.

(** The element of a comprehension over a [data] list: kept when it is a
    dict holding the key [id]. *)
Definition data_entry (x : value) : option string :=
  match x with
  | VDict d => if dict_mem "id" d then Some (py_str (dict_get "id" d)) else None
  | _ => None
  end.

(** The element of the other two comprehensions: kept when it is a dict. *)
Definition named_entry (x : value) : option string :=
  match x with
  | VDict d => Some (py_str (py_or (dict_get "id" d) (dict_get "name" d)))
  | _ => None
  end.

Fixpoint collect (A B : Type) (f : A -> option B) (l : list A) : list B :=
  match l with
  | [] => []
  | x :: rest =>
      match f x with
      | Some y => y :: collect f rest
      | None => collect f rest
      end
  end.

Definition _extract_model_ids (payload : value) : list string :=
  match payload with
  | VDict d =>
      match dict_lookup "data" d with
      | Some (VList l) => collect data_entry l
      | _ =>
          match dict_lookup "models" d with
          | Some (VList l) => collect named_entry l
          | _ => []
          end
      end
  | VList l => collect named_entry l
  | _ => []
  end.

(** The [for mid in model_ids] scan of [_pick_model]. *)
Fixpoint first_match (hint : string) (model_ids : list string) : option string :=
  match model_ids with
  | [] => None
  | mid :: rest =>
      if str_contains (str_lower hint) (str_lower mid) then Some mid
      else first_match hint rest
  end.

Definition _pick_model (model_ids : list string) (hint : string) : option string :=
  match model_ids with
  | [] => None
  | first :: _ =>
      if (hint =? EmptyString)%string then Some first
      else
        match first_match hint model_ids with
        | Some mid => Some mid
        | None => Some first
        end
  end.

Definition _chat_payload (model : string) : bytes :=
  list_byte_of_string
    (json_dumps
       (VDict [ ("model", VStr model);
                ("messages", VList [VDict [("role", VStr "user"); ("content", VStr "ping")]]);
                ("stream", VBool false) ])).

Definition _legacy_payload (model : string) : bytes :=
  list_byte_of_string
    (json_dumps
       (VDict [ ("model", VStr model); ("prompt", VStr "ping"); ("max_tokens", VInt 8) ])).

Definition _yaml_quote (s : string) : string :=
  let s2 := replace_char dquote (backslash_str ++ dquote_str)
              (replace_char backslash (backslash_str ++ backslash_str) s) in
  dquote_str ++ s2 ++ dquote_str.

(** [item["provider"]] for each item of the context list; [None] stands
    for the [KeyError] of a missing key. *)
Fixpoint context_lines (ctx : list (list (string * string))) : option (list string) :=
  match ctx with
  | [] => Some []
  | item :: rest =>
      match dict_lookup "provider" item, context_lines rest with
      | Some p, Some ls => Some (("  - provider: " ++ p) :: ls)
      | _, _ => None
      end
  end.

(** The list [lines] at the end of [_render_yaml]. *)
Definition render_lines (result : ProbeResult) (api_key title model_name : string)
    : option (list string) :=
  let lines :=
    [ "name: " ++ title;
      "version: 1.0.0";
      "schema: v1";
      "models:";
      "  - name: " ++ model_name;
      "    provider: openai";
      "    model: " ++ model result;
      "    env:";
      "      useLegacyCompletionsEndpoint: "
        ++ (if use_legacy_completions_endpoint result then "true" else "false");
      "    apiBase: " ++ api_base result;
      "    apiKey: " ++ _yaml_quote api_key;
      "    roles:";
      "      - chat";
      "      - edit";
      "context:" ] in
  match context_lines DEFAULT_CONTEXT with
  | Some cl => Some (lines ++ cl ++ [EmptyString])%list
  | None => None
  end.

Definition _render_yaml (result : ProbeResult) (api_key title model_name : string)
    : option string :=
  option_map (str_join newline_str) (render_lines result api_key title model_name).

End PureHelpers.

(** ** Notions used in the statements about the pure helpers *)

(** [needle] occurs in [hay]. *)
Definition Substring (needle hay : string) : Prop :=
  exists a b : string, hay = a ++ needle ++ b.


(** ** The network behind [urllib.request.urlopen] *)

(** What [_http_request] hands to [urlopen]. *)
Record Request (S : Type) : Type := mkRequest {
  req_method : string;
  req_url : string;
  req_headers : list (string * string);
  req_data : option bytes;
  req_timeout : S
}.

(** The three ways a call of [urlopen] followed by [read] ends: a response
    object, an [HTTPError] carrying the error response, or another
    exception (no connection, timeout, DNS failure, bad URL). *)
Inductive UrlopenOutcome : Type :=
| Responded (st : Z) (hdrs : list (string * string)) (content : bytes)
| HTTPErrorRaised (code : Z) (hdrs : list (string * string)) (content : bytes)
| ConnectionFailed (e : exn).

(** The world the program talks to.  A call may change it, so the same
    request can be answered differently the second time. *)
Class Network : Type := {
  World : Type;
  seconds : Type;
  urlopen : Request seconds -> World -> UrlopenOutcome * World
}.

Section Probe.
Context {RT : PyRuntime} {NW : Network}.

(** One call of [urlopen] and how it ended. *)
Definition Exchange : Type := (Request seconds * UrlopenOutcome)%type.

(** *** Computations: world passing, exceptions, and the calls made *)

Definition M (A : Type) : Type := World -> outcome A * World * list Exchange.

Definition ret (A : Type) (a : A) : M A := fun w => (Returned a, w, []).

Definition bind (A B : Type) (m : M A) (f : A -> M B) : M B :=
  fun w =>
    match m w with
    | (Returned a, w1, t1) =>
        match f a w1 with
        | (o, w2, t2) => (o, w2, (t1 ++ t2)%list)
        end
    | (Raised e, w1, t1) => (Raised e, w1, t1)
    end.

(** A call that does not touch the network. *)
Definition lift (A : Type) (o : outcome A) : M A := fun w => (o, w, []).

Notation "x <- m ;; k" := (bind m (fun x => k))
  (at level 61, m at next level, right associativity).
Notation "' pat <- m ;; k" := (bind m (fun x => match x with pat => k end))
  (at level 61, pat pattern, m at next level, right associativity).

(** [{k.lower(): v for k, v in items}]. *)
Definition lower_headers (items : list (string * string)) : list (string * string) :=
  fold_left (fun d kv => dict_set (str_lower (fst kv)) (snd kv) d) items [].

Definition _http_request (method url : string) (hdrs : list (string * string))
    (data : option bytes) (timeout_s : seconds) : M HttpResponse :=
  fun w =>
    let req := mkRequest method url hdrs data timeout_s in
    match urlopen req w with
    | (Responded st hs content, w') =>
        (Returned (mkHttpResponse st (lower_headers hs) content), w',
         [(req, Responded st hs content)])
    | (HTTPErrorRaised code hs content, w') =>
        (Returned (mkHttpResponse code (lower_headers hs) content), w',
         [(req, HTTPErrorRaised code hs content)])
    | (ConnectionFailed e, w') =>
        (Raised e, w', [(req, ConnectionFailed e)])
    end.

(** The note [f"{url} -> {resp.status}"]. *)
Definition note (url : string) (st : Z) : string := url ++ " -> " ++ str_of_int st.

Definition _probe_models (base api_key : string) (timeout_s : seconds)
    : M (option (list string) * string) :=
  let url := _join base "/models" in
  resp <- _http_request "GET" url (_auth_headers api_key) None timeout_s ;;
  payload <- lift (_try_json resp) ;;
  let ids := if status resp =? 200 then Some (_extract_model_ids payload) else None in
  ret (ids, note url (status resp)).

(** [v is not None]. *)
Definition is_not_None (v : value) : bool :=
  match v with VNone => false | _ => true end.

(** [resp.status == 200 and _try_json(resp) is not None]: the body is
    decoded only when the status is 200. *)
Definition status_and_json (resp : HttpResponse) : M bool :=
  if status resp =? 200 then
    v <- lift (_try_json resp) ;;
    ret (is_not_None v)
  else ret false.

Definition _probe_chat (base api_key model : string) (timeout_s : seconds)
    : M (bool * string) :=
  let url := _join base "/chat/completions" in
  resp <- _http_request "POST" url (_auth_headers api_key)
            (Some (_chat_payload model)) timeout_s ;;
  ok <- status_and_json resp ;;
  ret (ok, note url (status resp)).

Definition _probe_legacy_completions (base api_key model : string) (timeout_s : seconds)
    : M (bool * string) :=
  let url := _join base "/completions" in
  let payload := _legacy_payload model in
  resp <- _http_request "POST" url (_auth_headers api_key) (Some payload) timeout_s ;;
  ok <- status_and_json resp ;;
  ret (ok, note url (status resp)).

(** [ids or []]. *)
Definition or_empty (ids : list string) : list string :=
  match ids with [] => [] | _ => ids end.

(** The [for base in ...] loop of [_best_effort_probe]; [notes] is the list
    the loop appends to.  [continue] is the recursive call, [return] ends
    the loop.  [if not model: continue] is taken when [model] is [None] and
    when it is the empty str. *)
Fixpoint probe_loop (bases : list string) (api_key model_hint : string)
    (timeout_s : seconds) (notes : list string)
    : M (option ProbeResult * list string) :=
  match bases with
  | [] => ret (None, notes)
  | base :: rest =>
      '(ids, n1) <- _probe_models base api_key timeout_s ;;
      let notes1 := (notes ++ [n1])%list in
      let picked :=
        match ids with
        | Some l => _pick_model (or_empty l) model_hint
        | None => None
        end in
      match picked with
      | None => probe_loop rest api_key model_hint timeout_s notes1
      | Some m =>
          if (m =? EmptyString)%string
          then probe_loop rest api_key model_hint timeout_s notes1
          else
            '(ok, n2) <- _probe_chat base api_key m timeout_s ;;
            let notes2 := (notes1 ++ [n2])%list in
            if ok then ret (Some (mkProbeResult base m false), notes2)
            else
              '(ok2, n3) <- _probe_legacy_completions base api_key m timeout_s ;;
              let notes3 := (notes2 ++ [n3])%list in
              if ok2 then ret (Some (mkProbeResult base m true), notes3)
              else probe_loop rest api_key model_hint timeout_s notes3
      end
  end.

(** *** Names for the parts of a run *)

(** The three requests the prober sends to a base. *)
Definition models_request (base api_key : string) (timeout_s : seconds) : Request seconds :=
  mkRequest "GET" (_join base "/models") (_auth_headers api_key) None timeout_s.

Definition chat_request (base api_key model : string) (timeout_s : seconds)
    : Request seconds :=
  mkRequest "POST" (_join base "/chat/completions") (_auth_headers api_key)
    (Some (_chat_payload model)) timeout_s.

Definition legacy_request (base api_key model : string) (timeout_s : seconds)
    : Request seconds :=
  mkRequest "POST" (_join base "/completions") (_auth_headers api_key)
    (Some (_legacy_payload model)) timeout_s.

(** What [_http_request] makes of the way [urlopen] ended. *)
Definition http_result (oc : UrlopenOutcome) : outcome HttpResponse :=
  match oc with
  | Responded st hs content => Returned (mkHttpResponse st (lower_headers hs) content)
  | HTTPErrorRaised code hs content => Returned (mkHttpResponse code (lower_headers hs) content)
  | ConnectionFailed e => Raised e
  end.

(** An exchange that produced an HTTP response, whatever its status. *)
Definition answered (x : Exchange) : Prop :=
  match snd x with
  | ConnectionFailed _ => False
  | _ => True
  end.

(** One turn of the loop for [base], with the notes it appends: the result
    when the turn ends in [return], [None] when it ends in [continue] or
    falls through to the next base. *)
Definition probe_candidate (base api_key model_hint : string) (timeout_s : seconds)
    : M (option ProbeResult * list string) :=
  '(ids, n1) <- _probe_models base api_key timeout_s ;;
  let picked :=
    match ids with
    | Some l => _pick_model (or_empty l) model_hint
    | None => None
    end in
  match picked with
  | None => ret (None, [n1])
  | Some m =>
      if (m =? EmptyString)%string then ret (None, [n1])
      else
        '(ok, n2) <- _probe_chat base api_key m timeout_s ;;
        if ok then ret (Some (mkProbeResult base m false), [n1; n2])
        else
          '(ok2, n3) <- _probe_legacy_completions base api_key m timeout_s ;;
          if ok2 then ret (Some (mkProbeResult base m true), [n1; n2; n3])
          else ret (None, [n1; n2; n3])
  end.

(** A run followed by more calls: the calls [t1] were made first. *)
Definition after (A : Type) (t1 : list Exchange) (r : outcome A * World * list Exchange)
    : outcome A * World * list Exchange :=
  match r with
  | (o, w, t2) => (o, w, (t1 ++ t2)%list)
  end.

Definition _best_effort_probe (host : string) (port : Z) (api_key model_hint : string)
    (timeout_s : seconds) : M (option ProbeResult * list string) :=
  probe_loop (_candidate_api_bases host port) api_key model_hint timeout_s [].

(** *** Notions used in the statements *)

(** The model the loop goes on with after the [/models] response [resp],
    whose body is decoded whatever the status: none when the status is not
    200, when no id is picked, or when the picked id is the empty str. *)
Definition selected (resp : HttpResponse) (model_hint : string)
    : outcome (option string) :=
  match _try_json resp with
  | Raised e => Raised e
  | Returned payload =>
      Returned
        (if status resp =? 200 then
           match _pick_model (_extract_model_ids payload) model_hint with
           | Some m => if (m =? EmptyString)%string then None else Some m
           | None => None
           end
         else None)
  end.

(** The test both completion probes apply to their response; the body is
    decoded only when the status is 200. *)
Definition usable (resp : HttpResponse) : outcome bool :=
  if status resp =? 200 then
    match _try_json resp with
    | Returned v => Returned (is_not_None v)
    | Raised e => Raised e
    end
  else Returned false.

(** The notes of the three probes. *)
Definition models_note (base : string) (resp : HttpResponse) : string :=
  note (_join base "/models") (status resp).
Definition chat_note (base : string) (resp : HttpResponse) : string :=
  note (_join base "/chat/completions") (status resp).
Definition legacy_note (base : string) (resp : HttpResponse) : string :=
  note (_join base "/completions") (status resp).

(** The run of one turn of the loop, call by call. *)
Definition candidate_trace (base api_key model_hint : string) (timeout_s : seconds)
    (w : World) : outcome (option ProbeResult * list string) * World * list Exchange :=
  let rq1 := models_request base api_key timeout_s in
  let (oc1, w1) := urlopen rq1 w in
  match http_result oc1 with
  | Raised e => (Raised e, w1, [(rq1, oc1)])
  | Returned r1 =>
      match selected r1 model_hint with
      | Raised e => (Raised e, w1, [(rq1, oc1)])
      | Returned None => (Returned (None, [models_note base r1]), w1, [(rq1, oc1)])
      | Returned (Some m) =>
          let rq2 := chat_request base api_key m timeout_s in
          let (oc2, w2) := urlopen rq2 w1 in
          match http_result oc2 with
          | Raised e => (Raised e, w2, [(rq1, oc1); (rq2, oc2)])
          | Returned r2 =>
              match usable r2 with
              | Raised e => (Raised e, w2, [(rq1, oc1); (rq2, oc2)])
              | Returned true =>
                  (Returned (Some (mkProbeResult base m false),
                             [models_note base r1; chat_note base r2]),
                   w2, [(rq1, oc1); (rq2, oc2)])
              | Returned false =>
                  let rq3 := legacy_request base api_key m timeout_s in
                  let (oc3, w3) := urlopen rq3 w2 in
                  match http_result oc3 with
                  | Raised e => (Raised e, w3, [(rq1, oc1); (rq2, oc2); (rq3, oc3)])
                  | Returned r3 =>
                      match usable r3 with
                      | Raised e => (Raised e, w3, [(rq1, oc1); (rq2, oc2); (rq3, oc3)])
                      | Returned ok3 =>
                          (Returned
                             (if ok3 then Some (mkProbeResult base m true) else None,
                              [models_note base r1; chat_note base r2; legacy_note base r3]),
                           w3, [(rq1, oc1); (rq2, oc2); (rq3, oc3)])
                      end
                  end
              end
          end
      end
  end.

(** A run in which no connection failure was absorbed: if it returned,
    every call got an HTTP response; if it raised [e], either the last call
    failed with [e] and every call before it got a response, or every call
    got a response and [e] came from decoding the last one. *)
Definition clean_run (A : Type) (r : outcome A * World * list Exchange) : Prop :=
  match r with
  | (Returned _, _, tr) => Forall answered tr
  | (Raised e, _, tr) =>
      (exists (tr0 : list Exchange) (req : Request seconds),
         tr = (tr0 ++ [(req, ConnectionFailed e)])%list /\ Forall answered tr0) \/
      Forall answered tr
  end.

(** The facts behind a result [r] found in the calls [tr]. *)
Definition grounded (api_key model_hint : string) (timeout_s : seconds)
    (r : ProbeResult) (tr : list Exchange) : Prop :=
  exists (oc : UrlopenOutcome) (resp : HttpResponse) (payload : value),
    In (models_request (api_base r) api_key timeout_s, oc) tr /\
    http_result oc = Returned resp /\
    status resp = 200 /\
    _try_json resp = Returned payload /\
    _pick_model (_extract_model_ids payload) model_hint = Some (model r) /\
    In (model r) (_extract_model_ids payload).

(** A request the prober may send for one of [bases]: the model listing,
    or a completion probe naming a non-empty model. *)
Definition probe_request (bases : list string) (api_key : string) (timeout_s : seconds)
    (req : Request seconds) : Prop :=
  exists base : string,
    In base bases /\
    (req = models_request base api_key timeout_s \/
     exists m : string,
       m <> EmptyString /\
       (req = chat_request base api_key m timeout_s \/
        req = legacy_request base api_key m timeout_s)).

(** Every [/models] call of a pass over [bases], started in world [w], is
    answered with a body that [_try_json] decodes without raising, and
    with a status other than 200 or a payload holding no ids. *)
Fixpoint models_unavailable (bases : list string) (api_key : string)
    (timeout_s : seconds) (w : World) : Prop :=
  match bases with
  | [] => True
  | base :: rest =>
      (exists (resp : HttpResponse) (payload : value),
         http_result (fst (urlopen (models_request base api_key timeout_s) w))
         = Returned resp /\
         _try_json resp = Returned payload /\
         (status resp <> 200 \/ _extract_model_ids payload = [])) /\
      models_unavailable rest api_key timeout_s
        (snd (urlopen (models_request base api_key timeout_s) w))
  end.

(** A note of the listing call for [base]. *)
Definition is_models_note (base n : string) : Prop :=
  exists st : Z, n = note (_join base "/models") st.

End Probe.

(** ** A concrete runtime and concrete servers

    [Sample.runtime] implements the [PyRuntime] interface for ASCII text:
    [lower] folds A-Z, [loads] is a decoder for the JSON grammar accepted by
    [json.loads] (including its [NaN] and [Infinity] literals) that raises
    [RecursionError] on a nesting deeper than [nesting_limit] and
    [ValueError] on an int of more than [max_str_digits] digits, [dumps]
    prints with the default separators.  Bytes above 127 pass through
    unchanged, so the functions agree with Python's on ASCII documents; they
    are used to run the prober on sample inputs. *)

Module Sample.

Local Open Scope char_scope.

Definition code (c : ascii) : N := N_of_ascii c.

Definition lower_char (c : ascii) : ascii :=
  if ((65 <=? code c) && (code c <=? 90))%N then ascii_of_N (code c + 32)%N else c.

Fixpoint lower (s : string) : string :=
  match s with
  | EmptyString => EmptyString
  | String c rest => String (lower_char c) (lower rest)
  end.

Definition is_ws (c : ascii) : bool :=
  Ascii.eqb c " " || Ascii.eqb c "009" || Ascii.eqb c "010" || Ascii.eqb c "013".

Definition is_digit (c : ascii) : bool := ((48 <=? code c) && (code c <=? 57))%N.

Fixpoint skip_ws (s : string) : string :=
  match s with
  | String c rest => if is_ws c then skip_ws rest else s
  | EmptyString => s
  end.

(** The longest prefix of digits, and what follows it. *)
Fixpoint take_digits (s : string) : string * string :=
  match s with
  | String c rest =>
      if is_digit c then let (d, r) := take_digits rest in (String c d, r)
      else (EmptyString, s)
  | EmptyString => (EmptyString, s)
  end.

Fixpoint digits_value (s : string) (acc : Z) : Z :=
  match s with
  | String c rest => digits_value rest (10 * acc + Z.of_N (code c - 48))
  | EmptyString => acc
  end.

Definition hex_value (c : ascii) : option N :=
  let n := code c in
  if ((48 <=? n) && (n <=? 57))%N then Some (n - 48)%N
  else if ((97 <=? n) && (n <=? 102))%N then Some (n - 87)%N
  else if ((65 <=? n) && (n <=? 70))%N then Some (n - 55)%N
  else None.

Definition hex4 (a b c d : ascii) : option N :=
  match hex_value a, hex_value b, hex_value c, hex_value d with
  | Some x, Some y, Some z, Some t => Some (((x * 16 + y) * 16 + z) * 16 + t)%N
  | _, _, _, _ => None
  end.

Definition hex_digit (n : N) : ascii :=
  if (n <? 10)%N then ascii_of_N (48 + n)%N else ascii_of_N (87 + n)%N.

(** UTF-8 encoding of a code point. *)
Definition utf8 (cp : N) : string :=
  let b (n : N) := ascii_of_N n in
  let low (n : N) := b (128 + n mod 64)%N in
  if (cp <? 128)%N then String (b cp) EmptyString
  else if (cp <? 2048)%N then
    String (b (192 + cp / 64)%N) (String (low cp) EmptyString)
  else if (cp <? 65536)%N then
    String (b (224 + cp / 4096)%N)
      (String (low (cp / 64)%N) (String (low cp) EmptyString))
  else
    String (b (240 + cp / 262144)%N)
      (String (low (cp / 4096)%N)
         (String (low (cp / 64)%N) (String (low cp) EmptyString))).

Definition simple_escape (e : ascii) : option ascii :=
  if Ascii.eqb e dquote then Some dquote
  else if Ascii.eqb e backslash then Some backslash
  else if Ascii.eqb e "/" then Some "/"
  else if Ascii.eqb e "b" then Some "008"
  else if Ascii.eqb e "f" then Some "012"
  else if Ascii.eqb e "n" then Some "010"
  else if Ascii.eqb e "r" then Some "013"
  else if Ascii.eqb e "t" then Some "009"
  else None.

(** The body of a string literal, after its opening quote: the characters
    read (plain ones, and code units written as [\uXXXX]) and the rest. *)
Fixpoint scan_string (s : string) (acc : list (ascii + N))
    : option (list (ascii + N) * string) :=
  match s with
  | EmptyString => None
  | String c rest =>
      if Ascii.eqb c dquote then Some (rev acc, rest)
      else if Ascii.eqb c backslash then
        match rest with
        | String e rest2 =>
            if Ascii.eqb e "u" then
              match rest2 with
              | String h1 (String h2 (String h3 (String h4 rest3))) =>
                  match hex4 h1 h2 h3 h4 with
                  | Some n => scan_string rest3 (inr n :: acc)
                  | None => None
                  end
              | _ => None
              end
            else
              match simple_escape e with
              | Some ch => scan_string rest2 (inl ch :: acc)
              | None => None
              end
        | EmptyString => None
        end
      else if (code c <? 32)%N then None
      else scan_string rest (inl c :: acc)
  end.

(** Text of the scanned characters; an escaped surrogate pair is one code
    point. *)
Fixpoint units_text (us : list (ascii + N)) : string :=
  match us with
  | [] => EmptyString
  | inl c :: rest => String c (units_text rest)
  | inr hi :: rest =>
      match rest with
      | inr lo :: rest' =>
          if ((55296 <=? hi) && (hi <=? 56319) && (56320 <=? lo) && (lo <=? 57343))%N
          then (utf8 (65536 + (hi - 55296) * 1024 + (lo - 56320))%N ++ units_text rest')%string
          else (utf8 hi ++ units_text rest)%string
      | _ => (utf8 hi ++ units_text rest)%string
      end
  end.

Definition parse_string (s : string) : option (string * string) :=
  match scan_string s [] with
  | Some (us, rest) => Some (units_text us, rest)
  | None => None
  end.

(** How reading a value ends: the value and the text after it, malformed
    input, or an exception other than [JSONDecodeError]. *)
Inductive parsed : Type :=
| Ok (v : value) (rest : string)
| Malformed
| Failed (e : exn).

(** The digit limit of [int(str)] (CPython 3.11 and later) and the nesting
    depth at which the decoder raises [RecursionError]: the interpreter's
    default recursion limit, 1000.  The frames already on the stack when
    [json.loads] is called lower the depth actually reached, and other
    interpreter versions set other limits; the sample bodies are far beyond
    all of them. *)
Definition max_str_digits : nat := 4300.
Definition nesting_limit : nat := 1000.

(** A number: an optional minus sign, then 0 or a digit string without a
    leading zero, an optional fraction (a dot and digits) and an optional
    exponent; an int when it has neither fraction nor exponent, and then
    [int] refuses more than [max_str_digits] digits. *)
Definition parse_number (s : string) : parsed :=
  let (sign, s1) :=
    match s with
    | String "-" r => ("-"%string, r)
    | _ => (EmptyString, s)
    end in
  let int_part :=
    match s1 with
    | String "0" r => Some ("0"%string, r)
    | String c _ => if is_digit c then Some (take_digits s1) else None
    | EmptyString => None
    end in
  match int_part with
  | None => Malformed
  | Some (ds, s2) =>
      let (frac, s3) :=
        match s2 with
        | String "." r =>
            match take_digits r with
            | (EmptyString, _) => (EmptyString, s2)
            | (fd, r') => (String "." fd, r')
            end
        | _ => (EmptyString, s2)
        end in
      let (ex, s4) :=
        match s3 with
        | String e r =>
            if Ascii.eqb e "e" || Ascii.eqb e "E" then
              let (sg, r1) :=
                match r with
                | String "+" r' => ("+"%string, r')
                | String "-" r' => ("-"%string, r')
                | _ => (EmptyString, r)
                end in
              match take_digits r1 with
              | (EmptyString, _) => (EmptyString, s3)
              | (ed, r') => (String e (sg ++ ed), r')
              end
            else (EmptyString, s3)
        | EmptyString => (EmptyString, s3)
        end in
      match frac, ex with
      | EmptyString, EmptyString =>
          if (max_str_digits <? String.length ds)%nat
          then Failed (ValueError "Exceeds the limit (4300 digits) for integer string conversion")
          else Ok (VInt (if (sign =? "-")%string then - digits_value ds 0
                         else digits_value ds 0)) s4
      | _, _ => Ok (VFloat (sign ++ ds ++ frac ++ ex)) s4
      end
  end.

(** [s] minus the prefix [p], when it starts with it. *)
Fixpoint strip_prefix (p s : string) : option string :=
  match p, s with
  | EmptyString, _ => Some s
  | String c p', String d s' => if Ascii.eqb c d then strip_prefix p' s' else None
  | String _ _, EmptyString => None
  end.

Definition parse_literal (s : string) : parsed :=
  match strip_prefix "null" s with
  | Some r => Ok VNone r
  | None =>
  match strip_prefix "true" s with
  | Some r => Ok (VBool true) r
  | None =>
  match strip_prefix "false" s with
  | Some r => Ok (VBool false) r
  | None =>
  match parse_number s with
  | Ok v r => Ok v r
  | Failed e => Failed e
  | Malformed =>
  match strip_prefix "NaN" s with
  | Some r => Ok (VFloat "NaN") r
  | None =>
  match strip_prefix "Infinity" s with
  | Some r => Ok (VFloat "Infinity") r
  | None =>
  match strip_prefix "-Infinity" s with
  | Some r => Ok (VFloat "-Infinity") r
  | None => Malformed
  end end end end end end end.

(** [dict(pairs)]. *)
Definition dict_of_pairs (pairs : list (string * value)) : list (string * value) :=
  fold_left (fun d kv => dict_set (fst kv) (snd kv) d) pairs [].

(** [depth] counts the arrays and objects the value lies in. *)
Fixpoint parse_value (fuel depth : nat) (s : string) : parsed :=
  match fuel with
  | O => Malformed
  | S f =>
      match s with
      | EmptyString => Malformed
      | String c rest =>
          if Ascii.eqb c dquote then
            match parse_string rest with
            | Some (t, r) => Ok (VStr t) r
            | None => Malformed
            end
          else if Ascii.eqb c "[" then
            if (nesting_limit <=? depth)%nat then Failed RecursionError
            else
              match skip_ws rest with
              | String "]" r => Ok (VList []) r
              | r => parse_elems f (S depth) r []
              end
          else if Ascii.eqb c "{" then
            if (nesting_limit <=? depth)%nat then Failed RecursionError
            else
              match skip_ws rest with
              | String "}" r => Ok (VDict []) r
              | r => parse_members f (S depth) r []
              end
          else parse_literal s
      end
  end
with parse_elems (fuel depth : nat) (s : string) (acc : list value) : parsed :=
  match fuel with
  | O => Malformed
  | S f =>
      match parse_value f depth s with
      | Ok v r =>
          match skip_ws r with
          | String "]" r' => Ok (VList (rev (v :: acc))) r'
          | String "," r' => parse_elems f depth (skip_ws r') (v :: acc)
          | _ => Malformed
          end
      | Malformed => Malformed
      | Failed e => Failed e
      end
  end
with parse_members (fuel depth : nat) (s : string) (acc : list (string * value)) : parsed :=
  match fuel with
  | O => Malformed
  | S f =>
      match s with
      | String c rest =>
          if Ascii.eqb c dquote then
            match parse_string rest with
            | Some (k, r) =>
                match skip_ws r with
                | String ":" r1 =>
                    match parse_value f depth (skip_ws r1) with
                    | Ok v r2 =>
                        match skip_ws r2 with
                        | String "}" r3 => Ok (VDict (dict_of_pairs (rev ((k, v) :: acc)))) r3
                        | String "," r3 => parse_members f depth (skip_ws r3) ((k, v) :: acc)
                        | _ => Malformed
                        end
                    | Malformed => Malformed
                    | Failed e => Failed e
                    end
                | _ => Malformed
                end
            | None => Malformed
            end
          else Malformed
      | EmptyString => Malformed
      end
  end.

Definition loads (s : string) : loads_result :=
  match parse_value (2 * String.length s + 2) 0 (skip_ws s) with
  | Ok v rest =>
      match skip_ws rest with
      | EmptyString => Loaded v
      | _ => JSONDecodeError
      end
  | Malformed => JSONDecodeError
  | Failed e => LoadsRaised e
  end.

(** [\u00XX] for a character, as [json.dumps] writes it. *)
Definition u_escape (c : ascii) : string :=
  String backslash
    (String "u" (String "0" (String "0"
       (String (hex_digit (code c / 16)%N) (String (hex_digit (code c mod 16)%N) EmptyString))))).

Definition dumps_char (c : ascii) : string :=
  if Ascii.eqb c dquote then String backslash dquote_str
  else if Ascii.eqb c backslash then String backslash backslash_str
  else if Ascii.eqb c "010" then String backslash "n"
  else if Ascii.eqb c "013" then String backslash "r"
  else if Ascii.eqb c "009" then String backslash "t"
  else if Ascii.eqb c "008" then String backslash "b"
  else if Ascii.eqb c "012" then String backslash "f"
  else if ((code c <? 32) || (126 <? code c))%N then u_escape c
  else String c EmptyString.

Fixpoint dumps_text (s : string) : string :=
  match s with
  | EmptyString => EmptyString
  | String c rest => (dumps_char c ++ dumps_text rest)%string
  end.

Definition dumps_str (s : string) : string :=
  (dquote_str ++ dumps_text s ++ dquote_str)%string.

Fixpoint dumps (v : value) : string :=
  match v with
  | VNone => "null"
  | VBool true => "true"
  | VBool false => "false"
  | VInt n => str_of_int n
  | VFloat l => l
  | VStr t => dumps_str t
  | VList items => ("[" ++ str_join ", " (map dumps items) ++ "]")%string
  | VDict items =>
      ("{" ++ str_join ", "
                (map (fun kv => dumps_str (fst kv) ++ ": " ++ dumps (snd kv)) items)
           ++ "}")%string
  end.

(** [repr] of a str: single quotes, unless the text has a single quote and
    no double quote. *)
Definition x_escape (c : ascii) : string :=
  String backslash
    (String "x" (String (hex_digit (code c / 16)%N)
       (String (hex_digit (code c mod 16)%N) EmptyString))).

Definition repr_char (quote c : ascii) : string :=
  if Ascii.eqb c quote then String backslash (String quote EmptyString)
  else if Ascii.eqb c backslash then String backslash backslash_str
  else if Ascii.eqb c "010" then String backslash "n"
  else if Ascii.eqb c "013" then String backslash "r"
  else if Ascii.eqb c "009" then String backslash "t"
  else if ((code c <? 32) || (code c =? 127))%N then x_escape c
  else String c EmptyString.

Fixpoint repr_text (quote : ascii) (s : string) : string :=
  match s with
  | EmptyString => EmptyString
  | String c rest => (repr_char quote c ++ repr_text quote rest)%string
  end.

Definition repr (s : string) : string :=
  let quote :=
    if str_contains "'" s && negb (str_contains dquote_str s) then dquote else "'" in
  String quote (repr_text quote s ++ String quote EmptyString).

(** A float literal denotes zero when its mantissa has no digit other than
    0 (underflow of tiny literals is not modelled here). *)
Fixpoint mantissa_zero (s : string) : bool :=
  match s with
  | EmptyString => true
  | String c rest =>
      if Ascii.eqb c "e" || Ascii.eqb c "E" then true
      else if is_digit c && negb (Ascii.eqb c "0") then false
      else if Ascii.eqb c "N" || Ascii.eqb c "I" then false
      else mantissa_zero rest
  end.

#[export] Instance runtime : PyRuntime := {|
  str_lower := lower;
  str_repr := repr;
  float_repr := fun l => l;
  float_is_zero := mantissa_zero;
  utf8_decode_replace := string_of_list_byte;
  json_loads := loads;
  json_dumps := dumps;
  decode_empty := eq_refl;
  loads_empty := eq_refl
|}.

(** JSON text written with single quotes in place of double quotes. *)
Definition js (s : string) : string := replace_char "'" dquote_str s.

Definition utf8_bytes (s : string) : bytes := list_byte_of_string s.

(** *** The server of [tests/test_probe.py]

    It listens on [127.0.0.1:port]; a request without the expected bearer
    token gets 401, an unknown route 404, a known route its status and
    JSON body.  [urlopen] returns the 2xx answers and raises [HTTPError]
    for the others; a request to another address is refused. *)

Definition Route : Type := ((string * string) * (Z * string))%type.

Fixpoint find_route (method path : string) (routes : list Route) : option (Z * string) :=
  match routes with
  | [] => None
  | ((m, p), r) :: rest =>
      if ((m =? method) && (p =? path))%string then Some r else find_route method path rest
  end.

Definition answer (st : Z) (content : string) : UrlopenOutcome :=
  let hdrs := [("Content-Type"%string, "application/json"%string)] in
  if ((200 <=? st) && (st <? 300))%Z then Responded st hdrs (utf8_bytes content)
  else HTTPErrorRaised st hdrs (utf8_bytes content).

Definition serve (port : Z) (token : string) (routes : list Route)
    (req : Request Z) : UrlopenOutcome :=
  match strip_prefix ("http://127.0.0.1:" ++ str_of_int port) (req_url req) with
  | None => ConnectionFailed (URLError "Connection refused")
  | Some path =>
      match dict_lookup "Authorization" (req_headers req) with
      | Some auth =>
          if (auth =? token)%string then
            match find_route (req_method req) path routes with
            | Some (st, content) => answer st content
            | None => answer 404 (js "{'error':'not_found'}")
            end
          else answer 401 (js "{'error':'unauthorized'}")
      | None => answer 401 (js "{'error':'unauthorized'}")
      end
  end.

(** The world of the test server counts the requests it has received. *)
Definition test_server (port : Z) (token : string) (routes : list Route) : Network := {|
  World := nat;
  seconds := Z;
  urlopen := fun req n => (serve port token routes req, S n)
|}.

(** The same server behind a link on which requests to the path [slow]
    time out. *)
Definition slow_server (port : Z) (token : string) (routes : list Route) (slow : string)
    : Network := {|
  World := nat;
  seconds := Z;
  urlopen := fun req n =>
    if (req_url req =? "http://127.0.0.1:" ++ str_of_int port ++ slow)%string
    then (ConnectionFailed TimeoutError, S n)
    else (serve port token routes req, S n)
|}.

(** *** Sample routes *)

Definition token : string := "Bearer sk-test".
Definition host : string := "127.0.0.1".
Definition api_key : string := "sk-test".
Definition hint : string := "llama3".
Definition root : string := "http://127.0.0.1:8080".

(** The response object [_http_request] builds from an answer of the test
    server. *)
Definition received (st : Z) (content : string) : HttpResponse :=
  mkHttpResponse st [("content-type"%string, "application/json"%string)] (utf8_bytes content).

Definition listing : string := js "{'data': [{'id': 'llama3:latest'}]}".
Definition chat_answer : string := js "{'choices': [{'message': {'content': 'pong'}}]}".
Definition legacy_answer : string := js "{'choices': [{'text': 'pong'}]}".
Definition not_found : string := js "{'error':'not_found'}".

(** A body of 100000 opening brackets, and an int of 5000 digits. *)
Definition deep_nesting : string := N.iter 100000 (String "[") EmptyString.
Definition long_int : string := N.iter 5000 (String "7") EmptyString.

(** The routes of [test_finds_api_base_and_chat]. *)
Definition routes_chat : list Route :=
  [ (("GET", "/api/models")%string, (200, listing));
    (("POST", "/api/chat/completions")%string, (200, chat_answer)) ].

(** The routes of [test_falls_back_to_legacy_completions], under [/v1]. *)
Definition routes_legacy : list Route :=
  [ (("GET", "/v1/models")%string, (200, listing));
    (("POST", "/v1/chat/completions")%string, (404, js "{'error': 'nope'}"));
    (("POST", "/v1/completions")%string, (200, legacy_answer)) ].

(** A working chat endpoint under [/v1] only. *)
Definition routes_v1 : list Route :=
  [ (("GET", "/v1/models")%string, (200, listing));
    (("POST", "/v1/chat/completions")%string, (200, chat_answer)) ].

(** A listing whose only id is the empty str, next to working completion
    endpoints. *)
Definition routes_empty_id : list Route :=
  [ (("GET", "/api/models")%string, (200, js "{'data': [{'id': ''}]}"));
    (("POST", "/api/chat/completions")%string, (200, chat_answer));
    (("POST", "/api/completions")%string, (200, legacy_answer)) ].

(** Completion endpoints that answer 200 with the JSON document [null]. *)
Definition routes_null : list Route :=
  [ (("GET", "/api/models")%string, (200, listing));
    (("POST", "/api/chat/completions")%string, (200, "null"%string));
    (("POST", "/api/completions")%string, (200, "null"%string)) ].

(** A listing endpoint that answers 404 with the deeply nested body. *)
Definition routes_deep_listing : list Route :=
  [ (("GET", "/api/models")%string, (404, deep_nesting)) ].

(** A chat endpoint that answers 200 with the deeply nested body, next to
    a working legacy endpoint. *)
Definition routes_deep_chat : list Route :=
  [ (("GET", "/api/models")%string, (200, listing));
    (("POST", "/api/chat/completions")%string, (200, deep_nesting));
    (("POST", "/api/completions")%string, (200, legacy_answer)) ].

(** The networks of the sample runs, all listening on port 8080. *)
Definition chat_net : Network := test_server 8080 token routes_chat.
Definition legacy_net : Network := test_server 8080 token routes_legacy.
Definition v1_net : Network := test_server 8080 token routes_v1.
Definition empty_id_net : Network := test_server 8080 token routes_empty_id.
Definition null_net : Network := test_server 8080 token routes_null.
Definition bare_net : Network := test_server 8080 token [].
Definition deep_listing_net : Network := test_server 8080 token routes_deep_listing.
Definition deep_chat_net : Network := test_server 8080 token routes_deep_chat.
Definition slow_net : Network := slow_server 8080 token routes_v1 "/api/models".

End Sample.

(** ** The rest of the module: the entry point and the [.env] file *)

(** The namespace [_parse_args] returns. *)
Record Namespace (S : Type) : Type := mkNamespace {
  arg_host : string;
  arg_port : Z;
  arg_api_key : string;
  arg_model_hint : string;
  arg_title : string;
  arg_model_name : string;
  arg_timeout : S;
  arg_debug : bool
}.

(** What a finished run of [main] leaves: its return value, the text
    written to [sys.stdout], and the lines printed to [sys.stderr]. *)
Record Finished : Type := mkFinished {
  exit_code : Z;
  stdout : string;
  stderr : list string
}.

Definition error_line : string :=
  "ERROR: Could not find a working OpenAI-compatible endpoint.".
Definition tip_line : string :=
  "Tip: rerun with --debug to see attempted endpoints.".

Section Main.
Context {RT : PyRuntime} {NW : Network}.

Notation "x <- m ;; k" := (bind m (fun x => k))
  (at level 61, m at next level, right associativity).
Notation "' pat <- m ;; k" := (bind m (fun x => match x with pat => k end))
  (at level 61, pat pattern, m at next level, right associativity).

(** The lines [print(f"# {n}", file=sys.stderr)] writes for the notes. *)
Definition debug_lines (debug : bool) (notes : list string) : list string :=
  if debug then map (fun n => "# " ++ n) notes else [].

(** [main], from the parsed arguments on ([_load_env] and [_parse_args] have
    run and returned [args]).  The inner [None] stands for the [KeyError]
    that [_render_yaml] could raise. *)
Definition main (args : Namespace seconds) : M (option Finished) :=
  '(res, notes) <- _best_effort_probe (arg_host args) (arg_port args) (arg_api_key args)
                     (arg_model_hint args) (arg_timeout args) ;;
  let printed := debug_lines (arg_debug args) notes in
  match res with
  | None =>
      ret (Some (mkFinished 2 EmptyString
                   (printed ++ [error_line]
                      ++ (if arg_debug args then [] else [tip_line]))%list))
  | Some r =>
      match _render_yaml r (arg_api_key args) (arg_title args) (arg_model_name args) with
      | Some yaml => ret (Some (mkFinished 0 yaml printed))
      | None => ret None
      end
  end.

(** *** Notions used in the statements about whole runs *)

(** The note a call leaves when it is answered. *)
Definition exchange_note (x : Exchange) : option string :=
  match http_result (snd x) with
  | Returned resp => Some (note (req_url (fst x)) (status resp))
  | Raised _ => None
  end.

(** The listing requests among the requests of a run. *)
Definition is_listing (req : Request seconds) : bool := (req_method req =? "GET")%string.

Definition listings (tr : list Exchange) : list (Request seconds) :=
  filter is_listing (map fst tr).

(** What a run found, without its notes. *)
Definition found (r : outcome (option ProbeResult * list string) * World * list Exchange)
    : outcome (option ProbeResult) :=
  match fst (fst r) with
  | Returned (res, _) => Returned res
  | Raised e => Raised e
  end.

(** A network whose answers do not depend on the requests made before. *)
Definition history_free : Prop :=
  forall (req : Request seconds) (w w' : World), fst (urlopen req w) = fst (urlopen req w').

End Main.

(** [is_dict x]: [isinstance(x, dict)]. *)
Definition is_dict (x : value) : bool :=
  match x with VDict _ => true | _ => false end.

(** A reader for what [_yaml_quote] writes: the text between the two
    double quotes, with backslash-backslash read as a backslash and
    backslash-quote as a double quote; nothing may follow the closing
    quote. *)
Fixpoint read_quoted (s : string) : option string :=
  match s with
  | EmptyString => None
  | String c rest =>
      if Ascii.eqb c dquote then
        match rest with EmptyString => Some EmptyString | _ => None end
      else if Ascii.eqb c backslash then
        match rest with
        | String d rest' =>
            if Ascii.eqb d backslash || Ascii.eqb d dquote
            then option_map (String d) (read_quoted rest')
            else None
        | EmptyString => None
        end
      else option_map (String c) (read_quoted rest)
  end.

Definition yaml_unquote (q : string) : option string :=
  match q with
  | String c rest => if Ascii.eqb c dquote then read_quoted rest else None
  | EmptyString => None
  end.

(** *** [_load_env] *)

(** [os.environ]: [k in os.environ], [os.environ.get(k)], and
    [os.environ[k] = v], which the platform may refuse ([None]). *)
Class Environ : Type := {
  Env : Type;
  env_mem : string -> Env -> bool;
  env_get : string -> Env -> option string;
  env_setitem : string -> string -> Env -> option Env
}.

(** [line.partition(c)] without its middle component: the text before the
    first [c] and the text after it. *)
Fixpoint partition_at (c : ascii) (s : string) : string * string :=
  match s with
  | EmptyString => (EmptyString, EmptyString)
  | String d rest =>
      if Ascii.eqb d c then (EmptyString, rest)
      else let (a, b) := partition_at c rest in (String d a, b)
  end.

Section LoadEnv.
Context {EV : Environ}.
(** [str.strip()]. *)
Variable str_strip : string -> string.

(** [os.environ.setdefault(k, v)]. *)
Definition env_setdefault (k v : string) (e : Env) : option Env :=
  if env_mem k e then Some e else env_setitem k v e.

(** The [for line in f] loop; [None] when an assignment raises. *)
Fixpoint load_lines (lines : list string) (e : Env) : option Env :=
  match lines with
  | [] => Some e
  | raw :: rest =>
      let line := str_strip raw in
      if (line =? EmptyString)%string || startswith line "#" then load_lines rest e
      else if str_contains "=" line then
        let (key, val) := partition_at "=" line in
        match env_setdefault (str_strip key) (str_strip val) e with
        | Some e' => load_lines rest e'
        | None => None
        end
      else load_lines rest e
  end.

(** [_load_env]: [file] is [None] when [.env] does not exist, else the
    lines read from it. *)
Definition _load_env (file : option (list string)) (e : Env) : option Env :=
  match file with
  | None => Some e
  | Some lines => load_lines lines e
  end.

(** The assignment a line of the file makes, if it makes one. *)
Definition assignment (raw : string) : option (string * string) :=
  let line := str_strip raw in
  if (line =? EmptyString)%string || startswith line "#" then None
  else if str_contains "=" line then
    let (key, val) := partition_at "=" line in Some (str_strip key, str_strip val)
  else None.

End LoadEnv.

(** A process environment as a list of items; the empty name is refused. *)
Module SampleEnv.

Definition is_space (c : ascii) : bool :=
  let n := N_of_ascii c in ((9 <=? n) && (n <=? 13) || (28 <=? n) && (n <=? 32))%N.

Fixpoint lstrip (s : string) : string :=
  match s with
  | String c rest => if is_space c then lstrip rest else s
  | EmptyString => s
  end.

(** [s] without its trailing white space. *)
Fixpoint rstrip (s : string) : string :=
  match s with
  | EmptyString => EmptyString
  | String c rest =>
      match rstrip rest with
      | EmptyString => if is_space c then EmptyString else String c EmptyString
      | t => String c t
      end
  end.

Definition strip (s : string) : string := rstrip (lstrip s).

#[export] Instance environ : Environ := {|
  Env := list (string * string);
  env_mem := fun k e => dict_mem k e;
  env_get := fun k e => dict_lookup k e;
  env_setitem := fun k v e => if (k =? EmptyString)%string then None else Some (dict_set k v e)
|}.

Definition newline : string := String "010"%char EmptyString.

(** A sample [.env] file. *)
Definition dotenv : list string :=
  [ ("# settings" ++ newline)%string;
    newline;
    ("PROBE_HOST = 10.0.0.5" ++ newline)%string;
    ("PROBE_API_KEY=sk-file=1" ++ newline)%string;
    ("PROBE_HOST=ignored" ++ newline)%string;
    ("no assignment here" ++ newline)%string;
    "PROBE_DEBUG=yes"%string ].

Definition shell_env : list (string * string) :=
  [ ("PROBE_API_KEY"%string, "sk-shell"%string); ("HOME"%string, "/root"%string) ].

End SampleEnv.

(** Discharges the next premise of [H] by evaluation. *)
Ltac feed H :=
  match type of H with
  | ?P -> _ =>
      let h := fresh "h" in
      assert (h : P);
      [ first [ reflexivity
              | vm_compute; reflexivity
              | vm_compute; discriminate
              | vm_compute; left; reflexivity
              | vm_compute; left; discriminate ]
      | specialize (H h); clear h ]
  end.

(** * Properties *)

Unset Implicit Arguments.
Import Sample.

(** ** Text *)

Lemma startswith_spec (s p : string) :
  startswith s p = true <-> exists b, s = p ++ b.
Proof.
  revert s; induction p as [|c p IH]; intros s; simpl.
  - split; [intros _; now exists s | reflexivity].
  - destruct s as [|d s].
    + split; [discriminate | intros [b Hb]; discriminate].
    + rewrite andb_true_iff, IH, Ascii.eqb_eq. split.
      * intros [-> [b ->]]. now exists b.
      * intros [b Hb]. injection Hb as -> ->. split; [reflexivity | now exists b].
Qed.

Lemma str_contains_spec (needle hay : string) :
  str_contains needle hay = true <-> Substring needle hay.
Proof.
  unfold Substring. induction hay as [|c hay IH].
  - simpl. rewrite orb_false_r, startswith_spec. split.
    + intros [b Hb]. now exists EmptyString, b.
    + intros [a [b Hab]]. destruct a; [now exists b | discriminate].
  - cbn [str_contains]. rewrite orb_true_iff, startswith_spec, IH. split.
    + intros [[b Hb] | [a [b Hab]]].
      * now exists EmptyString, b.
      * exists (String c a), b. simpl. now rewrite Hab.
    + intros [a [b Hab]]. destruct a as [|d a].
      * left. now exists b.
      * right. simpl in Hab. injection Hab as _ Hab. now exists a, b.
Qed.

Lemma str_contains_false (needle hay : string) :
  str_contains needle hay = false <-> ~ Substring needle hay.
Proof.
  rewrite <- str_contains_spec. destruct (str_contains needle hay); split; intros H.
  - discriminate.
  - now contradiction H.
  - discriminate.
  - reflexivity.
Qed.

(** ** Dicts *)

Section DictFacts.
Variable V : Type.
Implicit Types (d : list (string * V)) (k : string) (v : V).

Lemma dict_lookup_set_same k v d : dict_lookup k (dict_set k v d) = Some v.
Proof.
  induction d as [|[k' v'] d IH]; simpl.
  - now rewrite String.eqb_refl.
  - destruct (k' =? k)%string eqn:E; simpl; rewrite E; [reflexivity | exact IH].
Qed.

Lemma dict_lookup_set_other k k0 v d :
  k0 <> k -> dict_lookup k0 (dict_set k v d) = dict_lookup k0 d.
Proof.
  intros Hne. induction d as [|[k' v'] d IH]; simpl.
  - destruct (k =? k0)%string eqn:E; [|reflexivity].
    apply String.eqb_eq in E. now contradiction Hne.
  - destruct (k' =? k)%string eqn:E; simpl.
    + apply String.eqb_eq in E. subst k'.
      destruct (k =? k0)%string eqn:E0; [|reflexivity].
      apply String.eqb_eq in E0. now contradiction Hne.
    + now rewrite IH.
Qed.

Lemma dict_set_In k v k0 v0 d :
  In (k0, v0) (dict_set k v d) -> (k0 = k /\ v0 = v) \/ In (k0, v0) d.
Proof.
  induction d as [|[k' v'] d IH]; simpl.
  - intros [H | []]. injection H as <- <-. now left.
  - destruct (k' =? k)%string eqn:E; simpl.
    + apply String.eqb_eq in E. subst k'. intros [H | H].
      * injection H as <- <-. now left.
      * right. now right.
    + intros [H | H].
      * right. now left.
      * destruct (IH H) as [? | ?]; [now left | right; now right].
Qed.

End DictFacts.

(** ** Model selection, decoding, extraction *)

Section HelperFacts.
Context {RT : PyRuntime}.

Lemma first_match_found (hint : string) (pre post : list string) (mid : string) :
  Substring (str_lower hint) (str_lower mid) ->
  (forall x, In x pre -> ~ Substring (str_lower hint) (str_lower x)) ->
  first_match hint (pre ++ mid :: post) = Some mid.
Proof.
  intros Hmid. induction pre as [|x pre IH]; intros Hpre; simpl.
  - apply str_contains_spec in Hmid. now rewrite Hmid.
  - assert (Hx : str_contains (str_lower hint) (str_lower x) = false).
    { apply str_contains_false, Hpre. now left. }
    rewrite Hx. apply IH. intros y Hy. apply Hpre. now right.
Qed.

Lemma first_match_none (hint : string) (ids : list string) :
  (forall x, In x ids -> ~ Substring (str_lower hint) (str_lower x)) ->
  first_match hint ids = None.
Proof.
  induction ids as [|x ids IH]; intros Hall; simpl; [reflexivity|].
  assert (Hx : str_contains (str_lower hint) (str_lower x) = false).
  { apply str_contains_false, Hall. now left. }
  rewrite Hx. apply IH. intros y Hy. apply Hall. now right.
Qed.

Lemma first_match_In (hint : string) (ids : list string) (mid : string) :
  first_match hint ids = Some mid -> In mid ids.
Proof.
  induction ids as [|x ids IH]; simpl; [discriminate|].
  destruct (str_contains (str_lower hint) (str_lower x)).
  - intros H. injection H as ->. now left.
  - intros H. right. now apply IH.
Qed.

Lemma pick_model_In (ids : list string) (hint mid : string) :
  _pick_model ids hint = Some mid -> In mid ids.
Proof.
  unfold _pick_model. destruct ids as [|first rest]; [discriminate|].
  destruct (hint =? EmptyString)%string.
  - intros H. injection H as ->. now left.
  - destruct (first_match hint (first :: rest)) as [m|] eqn:E.
    + intros H. injection H as ->. now apply first_match_In with hint.
    + intros H. injection H as ->. now left.
Qed.

Lemma or_empty_id (ids : list string) : or_empty ids = ids.
Proof. now destruct ids. Qed.

(** C6: [_pick_model] returns nothing on an empty list; with a non-empty
    hint it returns the first id, in input order, whose lowercase form
    contains the lowercase hint as a substring; when the hint is empty or no
    id matches it returns the first id. *)
Theorem pick_model_contract (ids : list string) (hint : string) :
  (ids = [] -> _pick_model ids hint = None) /\
  (hint <> EmptyString ->
   forall (pre post : list string) (mid : string),
     ids = (pre ++ mid :: post)%list ->
     Substring (str_lower hint) (str_lower mid) ->
     (forall x, In x pre -> ~ Substring (str_lower hint) (str_lower x)) ->
     _pick_model ids hint = Some mid) /\
  (forall (first : string) (rest : list string),
     ids = first :: rest ->
     hint = EmptyString \/
       (forall x, In x ids -> ~ Substring (str_lower hint) (str_lower x)) ->
     _pick_model ids hint = Some first).
Proof.
  split; [|split].
  - intros ->. reflexivity.
  - intros Hhint pre post mid -> Hmid Hpre.
    unfold _pick_model.
    destruct (pre ++ mid :: post)%list as [|first rest] eqn:E.
    + destruct pre; discriminate.
    + apply String.eqb_neq in Hhint. rewrite Hhint.
      rewrite <- E. now rewrite first_match_found.
  - intros first rest -> [-> | Hnone]; simpl.
    + reflexivity.
    + destruct (hint =? EmptyString)%string; [reflexivity|].
      change (match first_match hint (first :: rest) with
              | Some mid => Some mid
              | None => Some first
              end = Some first).
      now rewrite first_match_none.
Qed.

(** Where the decoder does not raise: [_try_json] returns [None] for an
    empty body and for a body that [json.loads] rejects with
    [JSONDecodeError], and it returns the value that [json.loads] parsed
    whenever [json.loads] returns one, be it a dict, a list or a scalar.
    Any other error of [json.loads] leaves [_try_json] as it is. *)
Theorem try_json_contract (resp : HttpResponse) :
  (body resp = [] -> _try_json resp = Returned VNone) /\
  (json_loads (utf8_decode_replace (body resp)) = JSONDecodeError ->
   _try_json resp = Returned VNone) /\
  (forall v : value,
     json_loads (utf8_decode_replace (body resp)) = Loaded v ->
     _try_json resp = Returned v) /\
  (forall e : exn,
     json_loads (utf8_decode_replace (body resp)) = LoadsRaised e ->
     _try_json resp = Raised e).
Proof.
  unfold _try_json. split; [|split; [|split]].
  - intros ->. reflexivity.
  - intros ->. now destruct (body resp).
  - intros v Hv. destruct (body resp) as [|b rest] eqn:E.
    + rewrite decode_empty, loads_empty in Hv. discriminate.
    + now rewrite Hv.
  - intros e He. destruct (body resp) as [|b rest] eqn:E.
    + rewrite decode_empty, loads_empty in He. discriminate.
    + now rewrite He.
Qed.

(** C4 (the code departs from the claim): a dict that has neither [id] nor
    [name] is not skipped in the [models] and bare-list shapes, where it
    contributes the text [None]; the [data] shape does skip it. *)
Theorem extract_ids_keyless_object (d : list (string * value)) :
  dict_mem "id" d = false ->
  dict_mem "name" d = false ->
  _extract_model_ids (VDict [("models", VList [VDict d])]) = ["None"] /\
  _extract_model_ids (VList [VDict d]) = ["None"] /\
  _extract_model_ids (VDict [("data", VList [VDict d])]) = [].
Proof.
  unfold dict_mem. intros Hid Hname.
  assert (Gid : dict_get "id" d = VNone).
  { unfold dict_get. now destruct (dict_lookup "id" d). }
  assert (Gname : dict_get "name" d = VNone).
  { unfold dict_get. now destruct (dict_lookup "name" d). }
  cbn. unfold dict_mem, py_or. rewrite Gid, Gname.
  destruct (dict_lookup "id" d); [discriminate|]. now cbn.
Qed.

End HelperFacts.

(** ** The renderer *)

Lemma append_assoc (a b c : string) : (a ++ b) ++ c = a ++ (b ++ c).
Proof. induction a as [|x a IH]; simpl; [reflexivity | now rewrite IH]. Qed.

Lemma append_empty_r (a : string) : a ++ EmptyString = a.
Proof. induction a as [|x a IH]; simpl; [reflexivity | now rewrite IH]. Qed.






(** ** The HTTP client and the three probes *)

Section ProbeFacts.
Context {RT : PyRuntime} {NW : Network}.

Lemma http_request_run (method url : string) (hdrs : list (string * string))
    (data : option bytes) (timeout_s : seconds) (w : World) :
  _http_request method url hdrs data timeout_s w
  = (http_result (fst (urlopen (mkRequest method url hdrs data timeout_s) w)),
     snd (urlopen (mkRequest method url hdrs data timeout_s) w),
     [(mkRequest method url hdrs data timeout_s,
       fst (urlopen (mkRequest method url hdrs data timeout_s) w))]).
Proof.
  unfold _http_request.
  destruct (urlopen (mkRequest method url hdrs data timeout_s) w) as [[st hs c|st hs c|e] w'];
    reflexivity.
Qed.

Lemma status_and_json_run (resp : HttpResponse) (w : World) :
  status_and_json resp w = (usable resp, w, []).
Proof.
  unfold status_and_json, usable, bind, ret, lift.
  destruct (status resp =? 200); [|reflexivity].
  now destruct (_try_json resp).
Qed.

Lemma probe_candidate_unfold (base api_key model_hint : string) (timeout_s : seconds)
    (w : World) :
  probe_candidate base api_key model_hint timeout_s w
  = candidate_trace base api_key model_hint timeout_s w.
Proof.
  unfold probe_candidate, candidate_trace, _probe_models, _probe_chat,
    _probe_legacy_completions, bind, selected, models_note, chat_note,
    legacy_note, models_request, chat_request, legacy_request.
  rewrite http_request_run.
  destruct (urlopen _ w) as [oc1 w1]. cbn [fst snd].
  destruct (http_result oc1) as [r1|e1]; [|reflexivity].
  unfold lift at 1. destruct (_try_json r1) as [payload|e]; [|reflexivity].
  unfold ret at 1. cbv beta iota.
  destruct (status r1 =? 200); [|reflexivity].
  rewrite or_empty_id.
  destruct (_pick_model _ model_hint) as [m|]; [|reflexivity].
  destruct (m =? EmptyString)%string; [reflexivity|].
  rewrite http_request_run.
  destruct (urlopen _ w1) as [oc2 w2]. cbn [fst snd].
  destruct (http_result oc2) as [r2|e2]; [|reflexivity].
  rewrite status_and_json_run.
  destruct (usable r2) as [[|]|e]; [reflexivity| |reflexivity].
  unfold ret at 1. cbv beta iota.
  rewrite http_request_run.
  destruct (urlopen _ w2) as [oc3 w3]. cbn [fst snd].
  destruct (http_result oc3) as [r3|e3]; [|reflexivity].
  rewrite status_and_json_run.
  destruct (usable r3) as [[|]|e]; reflexivity.
Qed.

(** The loop is its turns in sequence: a turn that returns a result ends
    it, a turn that raises ends it, any other turn hands over to the next
    base with its notes appended. *)
Lemma probe_loop_cons (base : string) (rest : list string) (api_key model_hint : string)
    (timeout_s : seconds) (notes : list string) (w : World) :
  probe_loop (base :: rest) api_key model_hint timeout_s notes w
  = match probe_candidate base api_key model_hint timeout_s w with
    | (Returned (Some r, ns), w1, t1) => (Returned (Some r, notes ++ ns)%list, w1, t1)
    | (Returned (None, ns), w1, t1) =>
        after t1 (probe_loop rest api_key model_hint timeout_s (notes ++ ns)%list w1)
    | (Raised e, w1, t1) => (Raised e, w1, t1)
    end.
Proof.
  cbn [probe_loop]. unfold probe_candidate, bind, ret, after.
  destruct (_probe_models base api_key timeout_s w) as [[[[ids n1]|e1] w1] t1];
    [|reflexivity].
  destruct (match ids with
            | Some l => _pick_model (or_empty l) model_hint
            | None => None
            end) as [m|].
  2: { rewrite app_nil_r. reflexivity. }
  destruct (m =? EmptyString)%string.
  { rewrite app_nil_r. reflexivity. }
  destruct (_probe_chat base api_key m timeout_s w1) as [[[[ok n2]|e2] w2] t2];
    [|reflexivity].
  destruct ok.
  { rewrite app_nil_r, <- app_assoc. reflexivity. }
  destruct (_probe_legacy_completions base api_key m timeout_s w2)
    as [[[[ok2 n3]|e3] w3] t3]; [|reflexivity].
  destruct ok2.
  { rewrite app_nil_r, <- !app_assoc. reflexivity. }
  rewrite app_nil_r, <- !app_assoc.
  destruct (probe_loop rest api_key model_hint timeout_s
              (((notes ++ [n1]) ++ [n2]) ++ [n3]) w3) as [[o w4] t4] eqn:E.
  rewrite <- !app_assoc in E. cbn [app] in E |- *. rewrite E.
  now rewrite <- !app_assoc.
Qed.

Lemma after_nil (A : Type) (r : outcome A * World * list Exchange) : after [] r = r.
Proof. now destruct r as [[o w] t]. Qed.

Lemma after_after (A : Type) (t1 t2 : list Exchange)
    (r : outcome A * World * list Exchange) :
  after t1 (after t2 r) = after (t1 ++ t2) r.
Proof. destruct r as [[o w] t]. simpl. now rewrite app_assoc. Qed.

Lemma probe_loop_app (pre rest : list string) (api_key model_hint : string)
    (timeout_s : seconds) (notes notes1 : list string) (w w1 : World)
    (t1 : list Exchange) :
  probe_loop pre api_key model_hint timeout_s notes w = (Returned (None, notes1), w1, t1) ->
  probe_loop (pre ++ rest) api_key model_hint timeout_s notes w
  = after t1 (probe_loop rest api_key model_hint timeout_s notes1 w1).
Proof.
  revert notes w t1. induction pre as [|base pre IH]; intros notes w t1 H.
  - cbn in H. injection H as <- <- <-. now rewrite after_nil.
  - change ((base :: pre) ++ rest)%list with (base :: (pre ++ rest))%list.
    rewrite probe_loop_cons in H |- *.
    destruct (probe_candidate base api_key model_hint timeout_s w)
      as [[[[[r|] ns]|e] wc] tc]; try discriminate.
    destruct (probe_loop pre api_key model_hint timeout_s (notes ++ ns) wc)
      as [[o w'] t'] eqn:E.
    cbn in H. injection H as -> -> <-.
    rewrite (IH _ _ _ E). apply after_after.
Qed.

(** *** Connection failures *)

Lemma http_result_answered (rq : Request seconds) (oc : UrlopenOutcome) (r : HttpResponse) :
  http_result oc = Returned r -> answered (rq, oc).
Proof. destruct oc; unfold answered; simpl; [trivial | trivial | discriminate]. Qed.

Lemma http_result_failed (oc : UrlopenOutcome) (e : exn) :
  http_result oc = Raised e -> oc = ConnectionFailed e.
Proof. destruct oc; simpl; try discriminate. intros H. now injection H as ->. Qed.

Lemma candidate_clean (base api_key model_hint : string) (timeout_s : seconds) (w : World) :
  clean_run (probe_candidate base api_key model_hint timeout_s w).
Proof.
  rewrite probe_candidate_unfold. unfold candidate_trace.
  destruct (urlopen _ w) as [oc1 w1].
  destruct (http_result oc1) as [r1|e1] eqn:H1.
  2: { apply http_result_failed in H1. subst oc1.
       left. exists [], (models_request base api_key timeout_s). now split. }
  pose proof (http_result_answered (models_request base api_key timeout_s) _ _ H1) as A1.
  destruct (selected r1 model_hint) as [[m|]|e].
  2: { cbn. now repeat constructor. }
  2: { right. now repeat constructor. }
  destruct (urlopen _ w1) as [oc2 w2].
  destruct (http_result oc2) as [r2|e2] eqn:H2.
  2: { apply http_result_failed in H2. subst oc2.
       left. exists [(models_request base api_key timeout_s, oc1)],
         (chat_request base api_key m timeout_s).
       split; [reflexivity | now repeat constructor]. }
  pose proof (http_result_answered (chat_request base api_key m timeout_s) _ _ H2) as A2.
  destruct (usable r2) as [[|]|e].
  { cbn. now repeat constructor. }
  2: { right. now repeat constructor. }
  destruct (urlopen _ w2) as [oc3 w3].
  destruct (http_result oc3) as [r3|e3] eqn:H3.
  2: { apply http_result_failed in H3. subst oc3.
       left. exists [(models_request base api_key timeout_s, oc1);
                     (chat_request base api_key m timeout_s, oc2)],
         (legacy_request base api_key m timeout_s).
       split; [reflexivity | now repeat constructor]. }
  pose proof (http_result_answered (legacy_request base api_key m timeout_s) _ _ H3) as A3.
  destruct (usable r3) as [ok3|e].
  - cbn. now repeat constructor.
  - right. now repeat constructor.
Qed.

Lemma clean_after (A : Type) (t1 : list Exchange) (r : outcome A * World * list Exchange) :
  Forall answered t1 -> clean_run r -> clean_run (after t1 r).
Proof.
  destruct r as [[[a|e] w] t]; simpl; intros H1 H.
  - apply Forall_app. now split.
  - destruct H as [[tr0 [req [-> H0]]] | H].
    + left. exists (t1 ++ tr0)%list, req. split.
      * now rewrite app_assoc.
      * apply Forall_app. now split.
    + right. apply Forall_app. now split.
Qed.

Lemma loop_clean (bases : list string) (api_key model_hint : string)
    (timeout_s : seconds) (notes : list string) (w : World) :
  clean_run (probe_loop bases api_key model_hint timeout_s notes w).
Proof.
  revert notes w. induction bases as [|base rest IH]; intros notes w.
  - cbn. constructor.
  - rewrite probe_loop_cons.
    pose proof (candidate_clean base api_key model_hint timeout_s w) as Hc.
    destruct (probe_candidate base api_key model_hint timeout_s w)
      as [[[[[r|] ns]|e] wc] tc]; cbn in Hc.
    + exact Hc.
    + apply clean_after; [exact Hc | apply IH].
    + exact Hc.
Qed.

(** C1 (amended): a connection-level failure is not absorbed.  If any call
    made during [_best_effort_probe] fails at connection level with [e],
    then [_best_effort_probe] raises [e] instead of returning its (result,
    notes) pair, and the failed call is the last one it made: no later
    probe or candidate is tried. *)
Theorem connection_failure_propagates (host : string) (port : Z)
    (api_key model_hint : string) (timeout_s : seconds) (w : World)
    (req : Request seconds) (e : exn) :
  In (req, ConnectionFailed e)
     (snd (_best_effort_probe host port api_key model_hint timeout_s w)) ->
  fst (fst (_best_effort_probe host port api_key model_hint timeout_s w)) = Raised e /\
  exists tr0 : list Exchange,
    snd (_best_effort_probe host port api_key model_hint timeout_s w)
    = (tr0 ++ [(req, ConnectionFailed e)])%list /\
    Forall answered tr0.
Proof.
  unfold _best_effort_probe.
  pose proof (loop_clean (_candidate_api_bases host port) api_key model_hint timeout_s [] w)
    as Hc.
  destruct (probe_loop (_candidate_api_bases host port) api_key model_hint timeout_s [] w)
    as [[[a|e'] w'] tr]; cbn in Hc |- *; intros Hin.
  - rewrite Forall_forall in Hc. destruct (Hc _ Hin).
  - destruct Hc as [[tr0 [req' [-> H0]]] | Hc].
    + apply in_app_or in Hin. destruct Hin as [Hin | [Hin | []]].
      * rewrite Forall_forall in H0. destruct (H0 _ Hin).
      * injection Hin as <- <-. split; [reflexivity | now exists tr0].
    + rewrite Forall_forall in Hc. destruct (Hc _ Hin).
Qed.

(** *** What a returned result was built from *)

Lemma selected_some (resp : HttpResponse) (model_hint m : string) :
  selected resp model_hint = Returned (Some m) ->
  status resp = 200 /\
  (exists payload : value,
     _try_json resp = Returned payload /\
     _pick_model (_extract_model_ids payload) model_hint = Some m) /\
  m <> EmptyString.
Proof.
  unfold selected. destruct (_try_json resp) as [payload|e]; [|discriminate].
  destruct (status resp =? 200) eqn:Est; [|discriminate].
  apply Z.eqb_eq in Est.
  destruct (_pick_model _ model_hint) as [m'|] eqn:Hp; [|discriminate].
  destruct (m' =? EmptyString)%string eqn:Em; [discriminate|].
  intros H. injection H as <-. apply String.eqb_neq in Em.
  split; [exact Est|]. split; [|exact Em]. now exists payload.
Qed.

Lemma candidate_success (base api_key model_hint : string) (timeout_s : seconds)
    (w w1 : World) (r : ProbeResult) (ns : list string) (t1 : list Exchange) :
  probe_candidate base api_key model_hint timeout_s w = (Returned (Some r, ns), w1, t1) ->
  api_base r = base /\ grounded api_key model_hint timeout_s r t1.
Proof.
  rewrite probe_candidate_unfold. unfold candidate_trace, grounded.
  destruct (urlopen _ w) as [oc1 w1'].
  destruct (http_result oc1) as [r1|e1] eqn:H1; [|discriminate].
  destruct (selected r1 model_hint) as [[m|]|e] eqn:Hs; try discriminate.
  apply selected_some in Hs. destruct Hs as [Hst [[payload [Hj Hpick]] Hne]].
  pose proof (pick_model_In _ _ _ Hpick) as Hin.
  destruct (urlopen _ w1') as [oc2 w2].
  destruct (http_result oc2) as [r2|e2]; [|discriminate].
  destruct (usable r2) as [[|]|e]; try discriminate.
  { intros H. injection H as <- _ _ <-. split; [reflexivity|].
    exists oc1, r1, payload. cbn. repeat split; auto. }
  destruct (urlopen _ w2) as [oc3 w3].
  destruct (http_result oc3) as [r3|e3]; [|discriminate].
  destruct (usable r3) as [[|]|e]; try discriminate.
  intros H. injection H as <- _ _ <-. split; [reflexivity|].
  exists oc1, r1, payload. cbn. repeat split; auto.
Qed.

(** C9: when [_best_effort_probe] returns a result, its [api_base] is one
    of the five candidate bases, and its [model] is the id that
    [_pick_model] chose, with the given hint, from the ids extracted from
    the decoded body of a status-200 response to the [/models] request for
    that base, one of the calls of the run; in particular it is an element
    of that id list. *)
Theorem result_is_grounded (host : string) (port : Z) (api_key model_hint : string)
    (timeout_s : seconds) (w w' : World) (r : ProbeResult) (notes : list string)
    (tr : list Exchange) :
  _best_effort_probe host port api_key model_hint timeout_s w
  = (Returned (Some r, notes), w', tr) ->
  In (api_base r) (_candidate_api_bases host port) /\
  exists (oc : UrlopenOutcome) (resp : HttpResponse) (payload : value),
    In (models_request (api_base r) api_key timeout_s, oc) tr /\
    http_result oc = Returned resp /\
    status resp = 200 /\
    _try_json resp = Returned payload /\
    _pick_model (_extract_model_ids payload) model_hint = Some (model r) /\
    In (model r) (_extract_model_ids payload).
Proof.
  unfold _best_effort_probe. generalize (@nil string) as notes0. revert w tr.
  induction (_candidate_api_bases host port) as [|base rest IH]; intros w tr notes0.
  - cbn. discriminate.
  - rewrite probe_loop_cons.
    destruct (probe_candidate base api_key model_hint timeout_s w)
      as [[[[[r0|] ns]|e] wc] tc] eqn:Hc; try discriminate.
    + (* the turn for [base] returned the result *)
      intros H. injection H as <- _ _ <-.
      apply candidate_success in Hc. destruct Hc as [Hb Hg].
      split; [now left | exact Hg].
    + (* the turn gave nothing: the result comes from a later base *)
      destruct (probe_loop rest api_key model_hint timeout_s (notes0 ++ ns) wc)
        as [[o w''] t''] eqn:E.
      cbn. intros H. injection H as -> -> <-.
      destruct (IH _ _ _ E) as [Hb [oc [resp [payload [Hin Hrest]]]]].
      split; [now right|].
      exists oc, resp, payload. split; [apply in_or_app; now right | exact Hrest].
Qed.

(** *** The requests that are sent *)

Lemma probe_request_mono (bases bases' : list string) (api_key : string)
    (timeout_s : seconds) (req : Request seconds) :
  (forall b, In b bases -> In b bases') ->
  probe_request bases api_key timeout_s req -> probe_request bases' api_key timeout_s req.
Proof. intros Hsub [base [Hin H]]. exists base. split; [now apply Hsub | exact H]. Qed.

Lemma candidate_requests (base api_key model_hint : string) (timeout_s : seconds)
    (w : World) :
  Forall (fun x => probe_request [base] api_key timeout_s (fst x))
    (snd (probe_candidate base api_key model_hint timeout_s w)).
Proof.
  assert (Hm : probe_request [base] api_key timeout_s (models_request base api_key timeout_s)).
  { exists base. split; [now left | now left]. }
  assert (Hc : forall m, m <> EmptyString ->
             probe_request [base] api_key timeout_s (chat_request base api_key m timeout_s)).
  { intros m Hne. exists base. split; [now left|]. right. exists m. split; [exact Hne | now left]. }
  assert (Hl : forall m, m <> EmptyString ->
             probe_request [base] api_key timeout_s (legacy_request base api_key m timeout_s)).
  { intros m Hne. exists base. split; [now left|]. right. exists m. split; [exact Hne | now right]. }
  rewrite probe_candidate_unfold. unfold candidate_trace.
  destruct (urlopen _ w) as [oc1 w1].
  destruct (http_result oc1) as [r1|e1]; [|cbn; now repeat constructor].
  destruct (selected r1 model_hint) as [[m|]|e] eqn:Hs;
    [|cbn; now repeat constructor|cbn; now repeat constructor].
  apply selected_some in Hs. destruct Hs as [_ [_ Hne]].
  specialize (Hc m Hne). specialize (Hl m Hne).
  destruct (urlopen _ w1) as [oc2 w2].
  destruct (http_result oc2) as [r2|e2]; [|cbn; now repeat constructor].
  destruct (usable r2) as [[|]|e];
    [cbn; now repeat constructor| |cbn; now repeat constructor].
  destruct (urlopen _ w2) as [oc3 w3].
  destruct (http_result oc3) as [r3|e3]; [|cbn; now repeat constructor].
  destruct (usable r3) as [ok3|e]; cbn; now repeat constructor.
Qed.

Lemma loop_requests (bases : list string) (api_key model_hint : string)
    (timeout_s : seconds) (notes : list string) (w : World) :
  Forall (fun x => probe_request bases api_key timeout_s (fst x))
    (snd (probe_loop bases api_key model_hint timeout_s notes w)).
Proof.
  revert notes w. induction bases as [|base rest IH]; intros notes w.
  - cbn. constructor.
  - rewrite probe_loop_cons.
    pose proof (candidate_requests base api_key model_hint timeout_s w) as Hc.
    assert (Hc' : Forall (fun x => probe_request (base :: rest) api_key timeout_s (fst x))
                    (snd (probe_candidate base api_key model_hint timeout_s w))).
    { eapply Forall_impl; [|exact Hc]. intros x. apply probe_request_mono.
      intros b [<- | []]. now left. }
    destruct (probe_candidate base api_key model_hint timeout_s w)
      as [[[[[r|] ns]|e] wc] tc]; cbn in Hc' |- *; try exact Hc'.
    specialize (IH (notes ++ ns)%list wc).
    destruct (probe_loop rest api_key model_hint timeout_s (notes ++ ns) wc)
      as [[o w''] t'']. cbn in IH |- *.
    apply Forall_app. split; [exact Hc'|].
    eapply Forall_impl; [|exact IH]. intros x. apply probe_request_mono.
    intros b Hb. now right.
Qed.

(** C10: [_best_effort_probe] never sends a chat-completion or legacy
    completion probe for the empty model: every request of a run is the
    model listing of a candidate base or a completion probe that names a
    non-empty model.  A base whose picked model is the empty str is left
    exactly as a base with no picked model is: after the [/models] call the
    loop goes on with the next base, one note appended. *)
Theorem empty_model_never_probed (host : string) (port : Z) (api_key model_hint : string)
    (timeout_s : seconds) :
  (forall w : World,
     Forall (fun x => probe_request (_candidate_api_bases host port) api_key timeout_s (fst x))
       (snd (_best_effort_probe host port api_key model_hint timeout_s w))) /\
  (forall (base : string) (rest notes ids : list string) (n1 : string) (w w1 : World)
          (t1 : list Exchange),
     _probe_models base api_key timeout_s w = (Returned (Some ids, n1), w1, t1) ->
     _pick_model ids model_hint = Some EmptyString \/ _pick_model ids model_hint = None ->
     probe_loop (base :: rest) api_key model_hint timeout_s notes w
     = after t1 (probe_loop rest api_key model_hint timeout_s (notes ++ [n1])%list w1)).
Proof.
  split.
  - intros w. apply loop_requests.
  - intros base rest notes ids n1 w w1 t1 Hm Hpick.
    cbn [probe_loop]. unfold bind. rewrite Hm, or_empty_id.
    destruct Hpick as [-> | ->]; reflexivity.
Qed.

(** *** Exhaustion *)

Lemma selected_none (resp : HttpResponse) (payload : value) (model_hint : string) :
  _try_json resp = Returned payload ->
  status resp <> 200 \/ _extract_model_ids payload = [] ->
  selected resp model_hint = Returned None.
Proof.
  unfold selected. intros -> [Hst | Hids].
  - apply Z.eqb_neq in Hst. now rewrite Hst.
  - rewrite Hids. now destruct (status resp =? 200).
Qed.

Lemma loop_unavailable (bases : list string) (api_key model_hint : string)
    (timeout_s : seconds) (notes : list string) (w : World) :
  models_unavailable bases api_key timeout_s w ->
  exists (ns : list string) (w' : World) (tr : list Exchange),
    probe_loop bases api_key model_hint timeout_s notes w
    = (Returned (None, notes ++ ns)%list, w', tr) /\
    Forall2 is_models_note bases ns /\
    map fst tr = map (fun b => models_request b api_key timeout_s) bases.
Proof.
  revert notes w. induction bases as [|base rest IH]; intros notes w H.
  - exists [], w, []. rewrite app_nil_r. repeat split. constructor.
  - cbn [models_unavailable] in H. destruct H as [[resp [payload [Hr [Hj Hcase]]]] Hrest].
    rewrite probe_loop_cons, probe_candidate_unfold. unfold candidate_trace.
    destruct (urlopen (models_request base api_key timeout_s) w) as [oc1 w1].
    cbn [fst snd] in Hr, Hrest. rewrite Hr, (selected_none _ _ model_hint Hj Hcase).
    destruct (IH (notes ++ [models_note base resp])%list w1 Hrest)
      as [ns [w' [tr [Hrun [Hnotes Htr]]]]].
    exists (models_note base resp :: ns), w', ((models_request base api_key timeout_s, oc1) :: tr).
    rewrite Hrun. cbn. rewrite <- app_assoc. repeat split.
    + constructor; [now exists (status resp) | exact Hnotes].
    + now rewrite Htr.
Qed.

(** The candidate bases for (host, port) are the five URLs with the
    suffixes [/api], [/v1], [/api/openai/v1], [/api/openai/v1] again, and
    none, in that order; and when every [/models] call of the run is
    answered with a body that [_try_json] decodes without raising, and with
    a status other than 200 or a payload that yields no ids, then
    [_best_effort_probe] returns no result, its notes are five, one listing
    note per candidate, and the requests it sent are exactly the five
    listing requests: no completion probe is attempted. *)
Theorem exhausted_without_models (host : string) (port : Z) (api_key model_hint : string)
    (timeout_s : seconds) (w : World) :
  _candidate_api_bases host port
  = [ "http://" ++ host ++ ":" ++ str_of_int port ++ "/api";
      "http://" ++ host ++ ":" ++ str_of_int port ++ "/v1";
      "http://" ++ host ++ ":" ++ str_of_int port ++ "/api/openai/v1";
      "http://" ++ host ++ ":" ++ str_of_int port ++ "/api/openai/v1";
      "http://" ++ host ++ ":" ++ str_of_int port ] /\
  (models_unavailable (_candidate_api_bases host port) api_key timeout_s w ->
   exists (notes : list string) (w' : World) (tr : list Exchange),
     _best_effort_probe host port api_key model_hint timeout_s w
     = (Returned (None, notes), w', tr) /\
     List.length notes = 5%nat /\
     Forall2 is_models_note (_candidate_api_bases host port) notes /\
     map fst tr
     = map (fun b => models_request b api_key timeout_s) (_candidate_api_bases host port)).
Proof.
  split.
  - unfold _candidate_api_bases. cbv zeta.
    rewrite !append_assoc. reflexivity.
  - intros H.
    destruct (loop_unavailable _ api_key model_hint timeout_s [] w H)
      as [ns [w' [tr [Hrun [Hnotes Htr]]]]].
    exists ns, w', tr. unfold _best_effort_probe. rewrite Hrun. cbn [app].
    repeat split; try assumption.
    apply Forall2_length in Hnotes. now rewrite <- Hnotes.
Qed.

(** *** First success wins *)

Lemma selected_intro (resp : HttpResponse) (payload : value) (model_hint m : string) :
  status resp = 200 ->
  _try_json resp = Returned payload ->
  _pick_model (_extract_model_ids payload) model_hint = Some m ->
  m <> EmptyString ->
  selected resp model_hint = Returned (Some m).
Proof.
  unfold selected. intros -> -> -> Hne. cbn.
  apply String.eqb_neq in Hne. now rewrite Hne.
Qed.

Lemma usable_true (resp : HttpResponse) (v : value) :
  status resp = 200 -> _try_json resp = Returned v -> v <> VNone ->
  usable resp = Returned true.
Proof.
  unfold usable. intros -> -> Hv. cbn.
  destruct v; try reflexivity. now contradiction Hv.
Qed.

Lemma usable_false (resp : HttpResponse) :
  status resp <> 200 \/ _try_json resp = Returned VNone -> usable resp = Returned false.
Proof.
  unfold usable. intros [Hst | ->].
  - apply Z.eqb_neq in Hst. now rewrite Hst.
  - now destruct (status resp =? 200).
Qed.

(** C2 (amended): let the loop reach the candidate [base] (the bases before
    it gave no result), let its [/models] call be answered with status 200
    and a body that [_try_json] decodes, and let [_pick_model] choose a
    non-empty model [m] from the extracted ids.  If the chat probe is
    answered with status 200 and a body that [_try_json] decodes to a value
    other than [None], then [_best_effort_probe] returns
    [ProbeResult(base, m, False)] at once; if the chat probe is answered
    with another status, or with status 200 and a body that [_try_json]
    decodes to [None], and the legacy probe is answered with status 200 and
    a body that [_try_json] decodes to a value other than [None], it
    returns [ProbeResult(base, m, True)] at once.  In both cases the
    successful probe is the last call made. *)
Theorem first_success_returns (host : string) (port : Z) (api_key model_hint : string)
    (timeout_s : seconds) (w : World)
    (pre post : list string) (base : string)
    (notes1 : list string) (w1 : World) (t1 : list Exchange)
    (oc1 oc2 : UrlopenOutcome) (w2 w3 : World) (resp1 resp2 : HttpResponse)
    (payload1 : value) (m : string) :
  _candidate_api_bases host port = (pre ++ base :: post)%list ->
  probe_loop pre api_key model_hint timeout_s [] w = (Returned (None, notes1), w1, t1) ->
  urlopen (models_request base api_key timeout_s) w1 = (oc1, w2) ->
  http_result oc1 = Returned resp1 ->
  status resp1 = 200 ->
  _try_json resp1 = Returned payload1 ->
  _pick_model (_extract_model_ids payload1) model_hint = Some m ->
  m <> EmptyString ->
  urlopen (chat_request base api_key m timeout_s) w2 = (oc2, w3) ->
  http_result oc2 = Returned resp2 ->
  (status resp2 = 200 ->
   forall v2 : value, _try_json resp2 = Returned v2 -> v2 <> VNone ->
   _best_effort_probe host port api_key model_hint timeout_s w
   = (Returned (Some (mkProbeResult base m false),
                (notes1 ++ [models_note base resp1; chat_note base resp2])%list),
      w3,
      (t1 ++ [(models_request base api_key timeout_s, oc1);
              (chat_request base api_key m timeout_s, oc2)])%list)) /\
  (status resp2 <> 200 \/ _try_json resp2 = Returned VNone ->
   forall (oc3 : UrlopenOutcome) (w4 : World) (resp3 : HttpResponse) (v3 : value),
     urlopen (legacy_request base api_key m timeout_s) w3 = (oc3, w4) ->
     http_result oc3 = Returned resp3 ->
     status resp3 = 200 -> _try_json resp3 = Returned v3 -> v3 <> VNone ->
     _best_effort_probe host port api_key model_hint timeout_s w
     = (Returned (Some (mkProbeResult base m true),
                  (notes1 ++ [models_note base resp1; chat_note base resp2;
                              legacy_note base resp3])%list),
        w4,
        (t1 ++ [(models_request base api_key timeout_s, oc1);
                (chat_request base api_key m timeout_s, oc2);
                (legacy_request base api_key m timeout_s, oc3)])%list)).
Proof.
  intros Hbases Hpre Hu1 Hr1 Hst1 Hj1 Hpick Hne Hu2 Hr2.
  unfold _best_effort_probe. rewrite Hbases.
  rewrite (probe_loop_app _ _ _ _ _ _ _ _ _ _ Hpre).
  rewrite probe_loop_cons, probe_candidate_unfold. unfold candidate_trace.
  rewrite Hu1, Hr1, (selected_intro _ _ _ _ Hst1 Hj1 Hpick Hne), Hu2, Hr2.
  split.
  - intros Hst2 v2 Hj2 Hv2. rewrite (usable_true _ _ Hst2 Hj2 Hv2). reflexivity.
  - intros Hfail oc3 w4 resp3 v3 Hu3 Hr3 Hst3 Hj3 Hv3.
    rewrite (usable_false _ Hfail), Hu3, Hr3, (usable_true _ _ Hst3 Hj3 Hv3). reflexivity.
Qed.

(** *** The HTTP client *)

Lemma lower_headers_from (items d : list (string * string)) (k v : string) :
  In (k, v) (fold_left (fun d kv => dict_set (str_lower (fst kv)) (snd kv) d) items d) ->
  In (k, v) d \/ exists k0 : string, In (k0, v) items /\ k = str_lower k0.
Proof.
  revert d. induction items as [|[k1 v1] items IH]; intros d; cbn [fold_left fst snd].
  - now left.
  - intros H. destruct (IH _ H) as [Hd | [k0 [Hin Hk]]].
    + apply dict_set_In in Hd. destruct Hd as [[-> ->] | Hd].
      * right. exists k1. split; [now left | reflexivity].
      * now left.
    + right. exists k0. split; [now right | exact Hk].
Qed.

Lemma lower_headers_keep (items d : list (string * string)) (key : string) :
  (forall kv, In kv items -> str_lower (fst kv) <> key) ->
  dict_lookup key (fold_left (fun d kv => dict_set (str_lower (fst kv)) (snd kv) d) items d)
  = dict_lookup key d.
Proof.
  revert d. induction items as [|[k1 v1] items IH]; intros d Hno; cbn [fold_left fst snd].
  - reflexivity.
  - rewrite IH.
    + apply dict_lookup_set_other. intros ->. apply (Hno (k1, v1)); [now left | reflexivity].
    + intros kv Hin. apply Hno. now right.
Qed.

Lemma lower_headers_mem (items d : list (string * string)) (key : string) :
  dict_mem key d = true ->
  dict_mem key (fold_left (fun d kv => dict_set (str_lower (fst kv)) (snd kv) d) items d)
  = true.
Proof.
  revert d. induction items as [|[k1 v1] items IH]; intros d Hd; cbn [fold_left fst snd].
  - exact Hd.
  - apply IH. unfold dict_mem in *.
    destruct (string_dec key (str_lower k1)) as [-> | Hne].
    + now rewrite dict_lookup_set_same.
    + now rewrite dict_lookup_set_other.
Qed.

(** C7: whenever [urlopen] produces an HTTP response, be it returned (2xx)
    or carried by an [HTTPError] (4xx, 5xx and the like), [_http_request]
    returns an [HttpResponse] and raises nothing; the response has the
    actual status code and the body that was read, and its headers are the
    received ones under lowercased names: every key is the lowercase form
    of a received name with a value received under it, every received name
    is present in lowercase, and when a lowercased name occurs more than
    once its last value is kept. *)
Theorem http_request_captures_response (method url : string)
    (hdrs : list (string * string)) (data : option bytes) (timeout_s : seconds)
    (w w' : World) (st : Z) (hs : list (string * string)) (content : bytes) :
  urlopen (mkRequest method url hdrs data timeout_s) w = (Responded st hs content, w') \/
  urlopen (mkRequest method url hdrs data timeout_s) w = (HTTPErrorRaised st hs content, w') ->
  exists resp : HttpResponse,
    fst (fst (_http_request method url hdrs data timeout_s w)) = Returned resp /\
    snd (fst (_http_request method url hdrs data timeout_s w)) = w' /\
    status resp = st /\
    body resp = content /\
    (forall k v : string,
       In (k, v) (headers resp) -> exists k0 : string, In (k0, v) hs /\ k = str_lower k0) /\
    (forall k0 v0 : string,
       In (k0, v0) hs -> dict_mem (str_lower k0) (headers resp) = true) /\
    (forall (before later : list (string * string)) (k0 v0 : string),
       hs = (before ++ (k0, v0) :: later)%list ->
       (forall kv, In kv later -> str_lower (fst kv) <> str_lower k0) ->
       dict_lookup (str_lower k0) (headers resp) = Some v0).
Proof.
  intros Hopen. exists (mkHttpResponse st (lower_headers hs) content).
  rewrite http_request_run.
  assert (Hres : http_result (fst (urlopen (mkRequest method url hdrs data timeout_s) w))
                 = Returned (mkHttpResponse st (lower_headers hs) content)
                 /\ snd (urlopen (mkRequest method url hdrs data timeout_s) w) = w').
  { destruct Hopen as [-> | ->]; now split. }
  destruct Hres as [Hres Hw]. cbn [fst snd status body headers].
  split; [exact Hres|]. split; [exact Hw|]. split; [reflexivity|]. split; [reflexivity|].
  unfold lower_headers. split; [|split].
  - intros k v Hin. apply lower_headers_from in Hin. destruct Hin as [[] | Hin]. exact Hin.
  - intros k0 v0 Hin. apply in_split in Hin. destruct Hin as [l1 [l2 ->]].
    rewrite fold_left_app. cbn [fold_left fst snd].
    apply lower_headers_mem. unfold dict_mem. now rewrite dict_lookup_set_same.
  - intros before later k0 v0 -> Hlast.
    rewrite fold_left_app. cbn [fold_left fst snd].
    rewrite (lower_headers_keep _ _ _ Hlast). apply dict_lookup_set_same.
Qed.

End ProbeFacts.

(** * Sample runs *)

Section SampleRuns.
Local Open Scope string_scope.

(** *** The helpers on sample inputs *)

Example join_strips_one_slash :
  _join "http://localhost:3000/api/" "models" = "http://localhost:3000/api/models" /\
  _join "http://localhost:3000" "/models" = "http://localhost:3000/models".
Proof. split; reflexivity. Qed.

Example candidate_bases_localhost :
  _candidate_api_bases "localhost" 3000
  = [ "http://localhost:3000/api";
      "http://localhost:3000/v1";
      "http://localhost:3000/api/openai/v1";
      "http://localhost:3000/api/openai/v1";
      "http://localhost:3000" ].
Proof. reflexivity. Qed.

Example str_of_int_signs :
  str_of_int 0 = "0" /\ str_of_int 404 = "404" /\ str_of_int (-1) = "-1".
Proof. repeat split; reflexivity. Qed.

Example yaml_quote_escapes :
  _yaml_quote (String "a" (String dquote (String backslash "b")))
  = String dquote
      (String "a" (String backslash (String dquote (String backslash (String backslash
         (String "b" dquote_str)))))).
Proof. reflexivity. Qed.

(** The three shapes; entries that are not dicts are skipped, and in the
    [data] shape also the dicts without [id]. *)
Example extract_data_shape :
  match loads (js "{'data': [{'id': 'a'}, 3, {'name': 'x'}, {'id': 7}, 'b'], 'models': []}") with
  | Loaded v => _extract_model_ids (RT := runtime) v = ["a"; "7"]
  | _ => False
  end.
Proof. vm_compute. reflexivity. Qed.

Example extract_models_shape :
  match loads (js "{'models': [{'id': 'a'}, {'name': 'b'}, {'id': '', 'name': 'c'}, 7]}") with
  | Loaded v => _extract_model_ids (RT := runtime) v = ["a"; "b"; "c"]
  | _ => False
  end.
Proof. vm_compute. reflexivity. Qed.

Example extract_bare_list_shape :
  match loads (js "[{'name': 'b'}, null, {'id': 'a', 'name': 'z'}]") with
  | Loaded v => _extract_model_ids (RT := runtime) v = ["b"; "a"]
  | _ => False
  end.
Proof. vm_compute. reflexivity. Qed.

Example extract_other_shapes :
  _extract_model_ids (RT := runtime) VNone = [] /\
  _extract_model_ids (RT := runtime) (VStr "llama3") = [] /\
  _extract_model_ids (RT := runtime) (VDict [("data", VStr "llama3")]) = [].
Proof. repeat split; reflexivity. Qed.

Example render_yaml_sample :
  _render_yaml (mkProbeResult "http://localhost:3000/api" "llama3:latest" false)
    "sk-test" "Local Assistant" "LLama3"
  = Some (str_join newline_str
            [ "name: Local Assistant";
              "version: 1.0.0";
              "schema: v1";
              "models:";
              "  - name: LLama3";
              "    provider: openai";
              "    model: llama3:latest";
              "    env:";
              "      useLegacyCompletionsEndpoint: false";
              "    apiBase: http://localhost:3000/api";
              "    apiKey: " ++ dquote_str ++ "sk-test" ++ dquote_str;
              "    roles:";
              "      - chat";
              "      - edit";
              "context:";
              "  - provider: code";
              "  - provider: docs";
              "  - provider: diff";
              "  - provider: terminal";
              "  - provider: problems";
              "  - provider: folder";
              "  - provider: codebase";
              EmptyString ]).
Proof. reflexivity. Qed.

(** *** The theorems on sample inputs *)

(** The ids of the specification's example, with and without a hint. *)
Lemma pick_model_contract_witness :
  _pick_model (RT := runtime) [] "llama3" = None /\
  _pick_model (RT := runtime) ["a"; "llama3:8b"; "b"] "llama3" = Some "llama3:8b" /\
  _pick_model (RT := runtime) ["a"; "llama3:8b"; "b"] EmptyString = Some "a" /\
  _pick_model (RT := runtime) ["a"; "b"] "llama3" = Some "a".
Proof.
  split; [|split; [|split]].
  - apply (proj1 (pick_model_contract (RT := runtime) [] "llama3")). reflexivity.
  - apply (proj1 (proj2 (pick_model_contract (RT := runtime) ["a"; "llama3:8b"; "b"] "llama3")))
      with (pre := ["a"]) (post := ["b"]).
    + discriminate.
    + reflexivity.
    + apply str_contains_spec. reflexivity.
    + intros x [<- | []]. apply str_contains_false. reflexivity.
  - apply (proj2 (proj2 (pick_model_contract (RT := runtime) ["a"; "llama3:8b"; "b"] EmptyString)))
      with (rest := ["llama3:8b"; "b"]).
    + reflexivity.
    + left. reflexivity.
  - apply (proj2 (proj2 (pick_model_contract (RT := runtime) ["a"; "b"] "llama3")))
      with (rest := ["b"]).
    + reflexivity.
    + right. intros x [<- | [<- | []]]; apply str_contains_false; reflexivity.
Defined.

(** An empty body, a malformed one, and a dict, a list and a number. *)
Lemma try_json_contract_witness :
  _try_json (RT := runtime) (received 200 EmptyString) = Returned VNone /\
  _try_json (RT := runtime) (received 200 "{") = Returned VNone /\
  _try_json (RT := runtime) (received 200 (js "{'a': 1}")) = Returned (VDict [("a", VInt 1)]) /\
  _try_json (RT := runtime) (received 200 "[1, 2]") = Returned (VList [VInt 1; VInt 2]) /\
  _try_json (RT := runtime) (received 200 "3") = Returned (VInt 3).
Proof.
  split; [|split; [|split; [|split]]].
  - apply (proj1 (try_json_contract (RT := runtime) (received 200 EmptyString))). reflexivity.
  - apply (proj1 (proj2 (try_json_contract (RT := runtime) (received 200 "{")))). reflexivity.
  - apply (proj1 (proj2 (proj2 (try_json_contract (RT := runtime)
                                  (received 200 (js "{'a': 1}")))))).
    reflexivity.
  - apply (proj1 (proj2 (proj2 (try_json_contract (RT := runtime) (received 200 "[1, 2]"))))).
    reflexivity.
  - apply (proj1 (proj2 (proj2 (try_json_contract (RT := runtime) (received 200 "3"))))).
    reflexivity.
Defined.

(** The entry [{"object": "model"}] in each of the three shapes. *)
Lemma extract_ids_keyless_object_witness :
  _extract_model_ids (RT := runtime)
    (VDict [("models", VList [VDict [("object", VStr "model")]])]) = ["None"] /\
  _extract_model_ids (RT := runtime) (VList [VDict [("object", VStr "model")]]) = ["None"] /\
  _extract_model_ids (RT := runtime)
    (VDict [("data", VList [VDict [("object", VStr "model")]])]) = [].
Proof.
  apply (extract_ids_keyless_object (RT := runtime) [("object", VStr "model")]);
    reflexivity.
Defined.


(** The run of [test_finds_api_base_and_chat], and a run against a server
    whose chat endpoint answers 404 under [/v1]. *)
Lemma first_success_returns_witness :
  fst (fst (_best_effort_probe (RT := runtime) (NW := chat_net)
              host 8080 api_key hint 3 0%nat))
  = Returned (Some (mkProbeResult "http://127.0.0.1:8080/api" "llama3:latest" false),
              [ "http://127.0.0.1:8080/api/models -> 200";
                "http://127.0.0.1:8080/api/chat/completions -> 200" ]) /\
  fst (fst (_best_effort_probe (RT := runtime) (NW := legacy_net)
              host 8080 api_key hint 3 0%nat))
  = Returned (Some (mkProbeResult "http://127.0.0.1:8080/v1" "llama3:latest" true),
              [ "http://127.0.0.1:8080/api/models -> 404";
                "http://127.0.0.1:8080/v1/models -> 200";
                "http://127.0.0.1:8080/v1/chat/completions -> 404";
                "http://127.0.0.1:8080/v1/completions -> 200" ]).
Proof.
  split.
  - pose proof (first_success_returns (RT := runtime) (NW := chat_net)
        host 8080 api_key hint 3 0%nat
        [] (skipn 1 (_candidate_api_bases host 8080)) (root ++ "/api")
        [] 0%nat []
        (answer 200 listing) (answer 200 chat_answer) 1%nat 2%nat
        (received 200 listing) (received 200 chat_answer)
        (VDict [("data", VList [VDict [("id", VStr "llama3:latest")]])])
        "llama3:latest") as H.
    do 10 feed H. destruct H as [H _]. feed H.
    specialize (H (VDict [("choices",
                           VList [VDict [("message", VDict [("content", VStr "pong")])]])])).
    feed H. feed H.
    rewrite H. reflexivity.
  - pose proof (first_success_returns (RT := runtime) (NW := legacy_net)
        host 8080 api_key hint 3 0%nat
        [root ++ "/api"] (skipn 2 (_candidate_api_bases host 8080)) (root ++ "/v1")
        ["http://127.0.0.1:8080/api/models -> 404"] 1%nat
        [(models_request (NW := legacy_net) (root ++ "/api") api_key 3, answer 404 not_found)]
        (answer 200 listing) (answer 404 (js "{'error': 'nope'}")) 2%nat 3%nat
        (received 200 listing) (received 404 (js "{'error': 'nope'}"))
        (VDict [("data", VList [VDict [("id", VStr "llama3:latest")]])])
        "llama3:latest") as H.
    do 10 feed H. destruct H as [_ H]. feed H.
    specialize (H (answer 200 legacy_answer) 4%nat (received 200 legacy_answer)
                  (VDict [("choices", VList [VDict [("text", VStr "pong")]])])).
    do 5 feed H.
    rewrite H. reflexivity.
Defined.

(** A server that knows no route: five listing calls, each answered 404. *)
Lemma exhausted_without_models_witness :
  models_unavailable (RT := runtime) (NW := bare_net)
    (_candidate_api_bases host 8080) api_key 3 0%nat /\
  exists (notes : list string) (w' : nat) (tr : list (Exchange (NW := bare_net))),
    _best_effort_probe (RT := runtime) (NW := bare_net) host 8080 api_key hint 3 0%nat
    = (Returned (None, notes), w', tr) /\
    List.length notes = 5%nat /\
    Forall2 is_models_note (_candidate_api_bases host 8080) notes /\
    map fst tr
    = map (fun b => models_request (NW := bare_net) b api_key 3)
        (_candidate_api_bases host 8080).
Proof.
  assert (Hun : models_unavailable (RT := runtime) (NW := bare_net)
                  (_candidate_api_bases host 8080) api_key 3 0%nat).
  { repeat split;
      (exists (received 404 not_found), (VDict [("error", VStr "not_found")]);
       split; [reflexivity | split; [reflexivity | left; discriminate]]). }
  split; [exact Hun|].
  exact (proj2 (exhausted_without_models (RT := runtime) (NW := bare_net)
                  host 8080 api_key hint 3 0%nat) Hun).
Defined.

(** A request for an unknown route: the 404 arrives as an [HttpResponse]. *)
Lemma http_request_captures_response_witness :
  exists resp : HttpResponse,
    fst (fst (_http_request (RT := runtime) (NW := chat_net)
                "GET" "http://127.0.0.1:8080/v1/models" (_auth_headers api_key) None 3 0%nat))
    = Returned resp /\
    status resp = 404 /\
    body resp = utf8_bytes not_found /\
    dict_lookup "content-type" (headers resp) = Some "application/json".
Proof.
  destruct (http_request_captures_response (RT := runtime) (NW := chat_net)
              "GET" "http://127.0.0.1:8080/v1/models" (_auth_headers api_key) None 3
              0%nat 1%nat 404 [("Content-Type", "application/json")] (utf8_bytes not_found)
              (or_intror eq_refl))
    as [resp [Hret [_ [Hst [Hbody [_ [_ Hlast]]]]]]].
  exists resp. repeat split; try assumption.
  apply (Hlast [] [] "Content-Type" "application/json"); [reflexivity|].
  intros kv [].
Defined.

(** The result found under [/v1] rests on the listing answered there. *)
Lemma result_is_grounded_witness :
  In "http://127.0.0.1:8080/v1" (_candidate_api_bases host 8080) /\
  exists (oc : UrlopenOutcome) (resp : HttpResponse) (payload : value),
    In (models_request (NW := v1_net) "http://127.0.0.1:8080/v1" api_key 3, oc)
       (snd (_best_effort_probe (RT := runtime) (NW := v1_net) host 8080 api_key hint 3 0%nat)) /\
    http_result (RT := runtime) oc = Returned resp /\
    status resp = 200 /\
    _try_json (RT := runtime) resp = Returned payload /\
    _pick_model (RT := runtime) (_extract_model_ids payload) hint = Some "llama3:latest" /\
    In "llama3:latest" (_extract_model_ids (RT := runtime) payload).
Proof.
  apply (result_is_grounded (RT := runtime) (NW := v1_net) host 8080 api_key hint 3
           0%nat 3%nat
           (mkProbeResult "http://127.0.0.1:8080/v1" "llama3:latest" false)
           [ "http://127.0.0.1:8080/api/models -> 404";
             "http://127.0.0.1:8080/v1/models -> 200";
             "http://127.0.0.1:8080/v1/chat/completions -> 200" ]
           (snd (_best_effort_probe (RT := runtime) (NW := v1_net)
                   host 8080 api_key hint 3 0%nat))).
  vm_compute. reflexivity.
Defined.

(** A listing whose only id is the empty str: the base is left after the
    listing call although both completion endpoints work. *)
Lemma empty_model_never_probed_witness :
  probe_loop (RT := runtime) (NW := empty_id_net)
    (_candidate_api_bases host 8080) api_key hint 3 [] 0%nat
  = after (snd (_probe_models (RT := runtime) (NW := empty_id_net)
                  (root ++ "/api") api_key 3 0%nat))
      (probe_loop (RT := runtime) (NW := empty_id_net)
         (skipn 1 (_candidate_api_bases host 8080)) api_key hint 3
         ["http://127.0.0.1:8080/api/models -> 200"] 1%nat).
Proof.
  apply (proj2 (empty_model_never_probed (RT := runtime) (NW := empty_id_net)
                  host 8080 api_key hint 3)
           (root ++ "/api") (skipn 1 (_candidate_api_bases host 8080)) []
           [EmptyString] "http://127.0.0.1:8080/api/models -> 200" 0%nat 1%nat
           (snd (_probe_models (RT := runtime) (NW := empty_id_net)
                   (root ++ "/api") api_key 3 0%nat))).
  - vm_compute. reflexivity.
  - left. reflexivity.
Defined.

(** The listing call of the first base times out. *)
Lemma connection_failure_propagates_witness :
  fst (fst (_best_effort_probe (RT := runtime) (NW := slow_net)
              host 8080 api_key hint 3 0%nat))
  = Raised TimeoutError /\
  exists tr0 : list (Exchange (NW := slow_net)),
    snd (_best_effort_probe (RT := runtime) (NW := slow_net) host 8080 api_key hint 3 0%nat)
    = (tr0 ++ [(models_request (NW := slow_net) (root ++ "/api") api_key 3,
                ConnectionFailed TimeoutError)])%list /\
    Forall answered tr0.
Proof.
  apply (connection_failure_propagates (RT := runtime) (NW := slow_net)
           host 8080 api_key hint 3 0%nat).
  vm_compute. left. reflexivity.
Defined.

(** *** Runs that depart from the specification *)

(** Against C1 as stated: the listing call of the first candidate times
    out.  The next candidate, [/v1], would have given a result, but
    [_best_effort_probe] raises the timeout after that one call and returns
    no (result, notes) pair. *)
Lemma timeout_is_not_absorbed :
  fst (fst (probe_loop (RT := runtime) (NW := slow_net)
              [root ++ "/v1"] api_key hint 3 [] 0%nat))
  = Returned (Some (mkProbeResult "http://127.0.0.1:8080/v1" "llama3:latest" false),
              [ "http://127.0.0.1:8080/v1/models -> 200";
                "http://127.0.0.1:8080/v1/chat/completions -> 200" ]) /\
  _best_effort_probe (RT := runtime) (NW := slow_net) host 8080 api_key hint 3 0%nat
  = (Raised TimeoutError, 1%nat,
     [(models_request (NW := slow_net) (root ++ "/api") api_key 3,
       ConnectionFailed TimeoutError)]) /\
  ~ (exists v : option ProbeResult * list string,
       fst (fst (_best_effort_probe (RT := runtime) (NW := slow_net)
                   host 8080 api_key hint 3 0%nat)) = Returned v).
Proof.
  split; [|split].
  - vm_compute. reflexivity.
  - vm_compute. reflexivity.
  - intros [v Hv]. vm_compute in Hv. discriminate Hv.
Qed.

(** Against C2 as stated.  First run: the listing of [/api] is answered
    with status 200, [_pick_model] selects a model from its ids (the empty
    str), and the chat endpoint answers 200 with a JSON body, yet no result
    is returned: the base is left after the listing call.  Second run: a
    model is selected and both completion endpoints answer 200 with the
    valid JSON document [null], yet no result is returned. *)
Lemma selected_model_and_json_body_without_result :
  (fst (fst (_probe_models (RT := runtime) (NW := empty_id_net) (root ++ "/api") api_key 3 0%nat))
   = Returned (Some [EmptyString], "http://127.0.0.1:8080/api/models -> 200") /\
   _pick_model (RT := runtime) [EmptyString] hint = Some EmptyString /\
   (forall n : nat,
      urlopen (Network := empty_id_net)
        (chat_request (RT := runtime) (NW := empty_id_net) (root ++ "/api") api_key EmptyString 3) n
      = (Responded 200 [("Content-Type", "application/json")] (utf8_bytes chat_answer), S n)) /\
   json_loads (PyRuntime := runtime) (utf8_decode_replace (utf8_bytes chat_answer))
   = Loaded (VDict [("choices",
                     VList [VDict [("message", VDict [("content", VStr "pong")])]])]) /\
   _best_effort_probe (RT := runtime) (NW := empty_id_net) host 8080 api_key hint 3 0%nat
   = (Returned (None,
                [ "http://127.0.0.1:8080/api/models -> 200";
                  "http://127.0.0.1:8080/v1/models -> 404";
                  "http://127.0.0.1:8080/api/openai/v1/models -> 404";
                  "http://127.0.0.1:8080/api/openai/v1/models -> 404";
                  "http://127.0.0.1:8080/models -> 404" ]),
      5%nat,
      snd (_best_effort_probe (RT := runtime) (NW := empty_id_net)
             host 8080 api_key hint 3 0%nat))) /\
  (fst (fst (_probe_models (RT := runtime) (NW := null_net) (root ++ "/api") api_key 3 0%nat))
   = Returned (Some ["llama3:latest"], "http://127.0.0.1:8080/api/models -> 200") /\
   _pick_model (RT := runtime) ["llama3:latest"] hint = Some "llama3:latest" /\
   (forall n : nat,
      urlopen (Network := null_net)
        (chat_request (RT := runtime) (NW := null_net) (root ++ "/api") api_key "llama3:latest" 3) n
      = (Responded 200 [("Content-Type", "application/json")] (utf8_bytes "null"), S n)) /\
   (forall n : nat,
      urlopen (Network := null_net)
        (legacy_request (RT := runtime) (NW := null_net) (root ++ "/api") api_key "llama3:latest" 3) n
      = (Responded 200 [("Content-Type", "application/json")] (utf8_bytes "null"), S n)) /\
   json_loads (PyRuntime := runtime) (utf8_decode_replace (utf8_bytes "null")) = Loaded VNone /\
   fst (fst (_best_effort_probe (RT := runtime) (NW := null_net) host 8080 api_key hint 3 0%nat))
   = Returned (None,
               [ "http://127.0.0.1:8080/api/models -> 200";
                 "http://127.0.0.1:8080/api/chat/completions -> 200";
                 "http://127.0.0.1:8080/api/completions -> 200";
                 "http://127.0.0.1:8080/v1/models -> 404";
                 "http://127.0.0.1:8080/api/openai/v1/models -> 404";
                 "http://127.0.0.1:8080/api/openai/v1/models -> 404";
                 "http://127.0.0.1:8080/models -> 404" ])).
Proof.
  split.
  - split; [vm_compute; reflexivity|].
    split; [vm_compute; reflexivity|].
    split; [intros n; vm_compute; reflexivity|].
    split; [vm_compute; reflexivity|].
    vm_compute. reflexivity.
  - split; [vm_compute; reflexivity|].
    split; [vm_compute; reflexivity|].
    split; [intros n; vm_compute; reflexivity|].
    split; [intros n; vm_compute; reflexivity|].
    split; [vm_compute; reflexivity|].
    vm_compute. reflexivity.
Qed.

(** A chat endpoint that answers 200 with the deeply nested body: the run
    raises out of the chat probe, and the working legacy endpoint is never
    asked. *)
Example chat_decode_error_stops_run :
  fst (fst (_best_effort_probe (RT := runtime) (NW := deep_chat_net)
              host 8080 api_key hint 3 0%nat))
  = Raised RecursionError /\
  map fst (snd (_best_effort_probe (RT := runtime) (NW := deep_chat_net)
                  host 8080 api_key hint 3 0%nat))
  = [ models_request (NW := deep_chat_net) (root ++ "/api") api_key 3;
      chat_request (RT := runtime) (NW := deep_chat_net) (root ++ "/api") api_key
        "llama3:latest" 3 ].
Proof. split; vm_compute; reflexivity. Qed.

(** A body that is one int of 5000 digits is valid JSON, and the decoder
    raises [ValueError] on it. *)
Example try_json_raises_on_long_int :
  _try_json (RT := runtime) (received 200 long_int)
  = Raised (ValueError "Exceeds the limit (4300 digits) for integer string conversion").
Proof. vm_compute. reflexivity. Qed.

(** C5 (the code departs from the claim): the response body of 100000
    opening brackets is not empty and is not valid JSON.  The decoder
    raises [RecursionError] on it, which the [except] clause of [_try_json]
    does not name: [_try_json] raises, and returns neither [None] nor any
    other value. *)
Lemma try_json_raises_on_deep_nesting :
  body (received 404 deep_nesting) <> [] /\
  json_loads (PyRuntime := runtime) (utf8_decode_replace (body (received 404 deep_nesting)))
  = LoadsRaised RecursionError /\
  _try_json (RT := runtime) (received 404 deep_nesting) = Raised RecursionError /\
  ~ (exists v : value, _try_json (RT := runtime) (received 404 deep_nesting) = Returned v).
Proof.
  split; [|split; [|split]].
  - intros H.
    apply (f_equal (fun l : bytes => match l with [] => true | _ :: _ => false end)) in H.
    vm_compute in H. discriminate H.
  - vm_compute. reflexivity.
  - vm_compute. reflexivity.
  - intros [v Hv]. vm_compute in Hv. discriminate Hv.
Qed.

(** C3 (the code departs from the claim): every [/models] call to this
    server is answered with status 404, the first one with the body of
    100000 opening brackets.  [_probe_models] decodes the body before it
    looks at the status, the decoder raises, and [_best_effort_probe]
    raises [RecursionError] after that one call: it returns no notes, and
    the other four candidates are never listed. *)
Lemma listing_decode_error_stops_run :
  (forall n : nat,
     urlopen (Network := deep_listing_net)
       (models_request (NW := deep_listing_net) (root ++ "/api") api_key 3) n
     = (HTTPErrorRaised 404 [("Content-Type", "application/json")] (utf8_bytes deep_nesting),
        S n)) /\
  (forall b : string,
     In b (skipn 1 (_candidate_api_bases host 8080)) ->
     forall n : nat,
       urlopen (Network := deep_listing_net)
         (models_request (NW := deep_listing_net) b api_key 3) n
       = (HTTPErrorRaised 404 [("Content-Type", "application/json")] (utf8_bytes not_found),
          S n)) /\
  fst (fst (_best_effort_probe (RT := runtime) (NW := deep_listing_net)
              host 8080 api_key hint 3 0%nat))
  = Raised RecursionError /\
  map fst (snd (_best_effort_probe (RT := runtime) (NW := deep_listing_net)
                  host 8080 api_key hint 3 0%nat))
  = [ models_request (NW := deep_listing_net) (root ++ "/api") api_key 3 ] /\
  ~ (exists v : option ProbeResult * list string,
       fst (fst (_best_effort_probe (RT := runtime) (NW := deep_listing_net)
                   host 8080 api_key hint 3 0%nat)) = Returned v).
Proof.
  split; [|split; [|split; [|split]]].
  - intros n. lazy -[deep_nesting]. reflexivity.
  - intros b Hb n. vm_compute in Hb.
    destruct Hb as [<- | [<- | [<- | [<- | []]]]]; vm_compute; reflexivity.
  - vm_compute. reflexivity.
  - vm_compute. reflexivity.
  - intros [v Hv]. vm_compute in Hv. discriminate Hv.
Qed.

End SampleRuns.

(** * Further properties of the module *)

From Stdlib Require Import Lia.

(** ** Joining a base and a path *)

Lemma ends_with_slash_snoc (b : string) : ends_with_slash (b ++ "/") = true.
Proof.
  induction b as [|c b IH]; [reflexivity|].
  cbn [append]. destruct (b ++ "/") eqn:E.
  - destruct b; discriminate.
  - exact IH.
Qed.

Lemma drop_last_snoc (b : string) (c : ascii) :
  drop_last (b ++ String c EmptyString) = b.
Proof.
  induction b as [|d b IH]; [reflexivity|].
  cbn [append]. destruct (b ++ String c EmptyString) eqn:E.
  - destruct b; discriminate.
  - transitivity (String d (drop_last (String a s))); [reflexivity | now rewrite IH].
Qed.

Lemma ends_with_slash_app (a b : string) :
  b <> EmptyString -> ends_with_slash (a ++ b) = ends_with_slash b.
Proof.
  intros Hb. induction a as [|c a IH]; [reflexivity|].
  cbn [append]. destruct (a ++ b) eqn:E.
  - destruct a; [now contradiction Hb | discriminate].
  - exact IH.
Qed.

(** [_join] puts exactly one slash between a base and a path when it is
    given at most one at the junction from either side: a trailing slash
    of the base and a leading slash of the path are both optional. *)
Theorem join_single_slash (base path : string) :
  ends_with_slash base = false ->
  startswith path "/" = false ->
  _join base path = base ++ "/" ++ path /\
  _join (base ++ "/") path = base ++ "/" ++ path /\
  _join base ("/" ++ path) = base ++ "/" ++ path /\
  _join (base ++ "/") ("/" ++ path) = base ++ "/" ++ path.
Proof.
  intros Hb Hp. unfold _join.
  rewrite Hb, Hp, ends_with_slash_snoc, drop_last_snoc.
  change (startswith ("/" ++ path) "/") with true. cbv iota.
  repeat split; reflexivity.
Qed.

(** [_join] removes one trailing slash of the base, never two. *)
Theorem join_strips_one (base path : string) :
  _join (base ++ "/" ++ "/") ("/" ++ path) = base ++ "/" ++ "/" ++ path.
Proof.
  unfold _join.
  replace (base ++ "/" ++ "/") with ((base ++ "/") ++ "/") by apply append_assoc.
  rewrite ends_with_slash_snoc, drop_last_snoc.
  change (startswith ("/" ++ path) "/") with true. cbv iota.
  now rewrite append_assoc.
Qed.

(** ** The URLs of the candidates *)

Lemma uint_text_no_slash (d : Decimal.uint) :
  ends_with_slash (NilEmpty.string_of_uint d) = false.
Proof.
  induction d as [|d IH|d IH|d IH|d IH|d IH|d IH|d IH|d IH|d IH|d IH];
    [reflexivity | ..];
    cbn [NilEmpty.string_of_uint];
    (destruct (NilEmpty.string_of_uint d); [reflexivity | exact IH]).
Qed.

Lemma str_of_int_no_slash (n : Z) : ends_with_slash (str_of_int n) = false.
Proof.
  unfold str_of_int, NilZero.string_of_int, NilZero.string_of_uint.
  destruct (Z.to_int n) as [d|d].
  - destruct d; try reflexivity; apply uint_text_no_slash.
  - destruct d; try reflexivity;
      match goal with
      | |- ends_with_slash (String "-" (NilEmpty.string_of_uint ?x)) = false =>
          pose proof (uint_text_no_slash x) as H;
          destruct (NilEmpty.string_of_uint x) eqn:E; [discriminate E | exact H]
      end.
Qed.

Lemma str_of_int_not_empty (n : Z) : str_of_int n <> EmptyString.
Proof.
  unfold str_of_int, NilZero.string_of_int, NilZero.string_of_uint.
  destruct (Z.to_int n) as [d|d]; destruct d; discriminate.
Qed.

Lemma candidate_no_slash (host : string) (port : Z) (base : string) :
  In base (_candidate_api_bases host port) -> ends_with_slash base = false.
Proof.
  unfold _candidate_api_bases. cbv zeta.
  intros [<- | [<- | [<- | [<- | [<- | []]]]]];
    try (rewrite ends_with_slash_app by discriminate; reflexivity).
  rewrite !ends_with_slash_app.
  - apply str_of_int_no_slash.
  - apply str_of_int_not_empty.
  - destruct (str_of_int port); discriminate.
  - destruct host; discriminate.
Qed.

(** For every host and port, each candidate base begins with
    [http://host:port], and the three URLs probed for it are the base
    followed by [/models], [/chat/completions] and [/completions]: [_join]
    never has a slash to strip from a candidate, whatever the host. *)
Theorem candidate_urls (host : string) (port : Z) (base : string) :
  In base (_candidate_api_bases host port) ->
  (exists suffix : string, base = "http://" ++ host ++ ":" ++ str_of_int port ++ suffix) /\
  _join base "/models" = base ++ "/models" /\
  _join base "/chat/completions" = base ++ "/chat/completions" /\
  _join base "/completions" = base ++ "/completions".
Proof.
  intros Hin. split.
  - revert Hin. unfold _candidate_api_bases. cbv zeta.
    intros [<- | [<- | [<- | [<- | [<- | []]]]]].
    + exists "/api". now rewrite !append_assoc.
    + exists "/v1". now rewrite !append_assoc.
    + exists "/api/openai/v1". now rewrite !append_assoc.
    + exists "/api/openai/v1". now rewrite !append_assoc.
    + exists EmptyString. now rewrite append_empty_r.
  - unfold _join. rewrite (candidate_no_slash host port base Hin).
    repeat split; reflexivity.
Qed.

(** ** Quoting the API key *)

Lemma replace_char_app (c : ascii) (new a b : string) :
  replace_char c new (a ++ b) = replace_char c new a ++ replace_char c new b.
Proof.
  induction a as [|d a IH]; [reflexivity|].
  cbn [append replace_char]. rewrite IH.
  destruct (Ascii.eqb d c); [now rewrite append_assoc | reflexivity].
Qed.

Lemma read_quoted_step (t r : string) :
  read_quoted (t ++ dquote_str) = Some r ->
  read_quoted (String backslash (String backslash t) ++ dquote_str)
  = Some (String backslash r) /\
  read_quoted (String backslash (String dquote t) ++ dquote_str)
  = Some (String dquote r) /\
  (forall c : ascii,
     c <> backslash -> c <> dquote ->
     read_quoted (String c t ++ dquote_str) = Some (String c r)).
Proof.
  intros H. split; [|split].
  - cbn. now rewrite H.
  - cbn. now rewrite H.
  - intros c Hb Hq. cbn [append read_quoted].
    apply Ascii.eqb_neq in Hb, Hq. now rewrite Hb, Hq, H.
Qed.

Lemma read_quoted_escaped (s : string) :
  read_quoted
    (replace_char dquote (backslash_str ++ dquote_str)
       (replace_char backslash (backslash_str ++ backslash_str) s) ++ dquote_str)
  = Some s.
Proof.
  induction s as [|c s IH]; [reflexivity|].
  destruct (read_quoted_step _ _ IH) as [Hbb [Hbq Hother]].
  cbn [replace_char].
  destruct (Ascii.eqb_spec c backslash) as [-> | Hb].
  - rewrite replace_char_app. exact Hbb.
  - cbn [replace_char].
    destruct (Ascii.eqb_spec c dquote) as [-> | Hq].
    + exact Hbq.
    + exact (Hother c Hb Hq).
Qed.

(** What [_yaml_quote] writes can be read back: between two double
    quotes, every backslash and double quote of the key is escaped with a
    backslash and nothing else is changed, so reading the quoted text
    returns the key, and two different keys are never written alike. *)
Theorem yaml_quote_round_trip (s : string) :
  yaml_unquote (_yaml_quote s) = Some s /\
  (forall s' : string, _yaml_quote s' = _yaml_quote s -> s' = s).
Proof.
  assert (Hread : forall t, yaml_unquote (_yaml_quote t) = Some t).
  { intros t. unfold _yaml_quote, yaml_unquote. cbv zeta.
    cbn [dquote_str append]. rewrite Ascii.eqb_refl.
    apply read_quoted_escaped. }
  split; [apply Hread|].
  intros s' Heq. pose proof (Hread s') as H'. rewrite Heq, Hread in H'.
  now injection H' as ->.
Qed.

(** ** Extraction and selection *)

Section MoreHelperFacts.
Context {RT : PyRuntime}.

Lemma collect_app (A B : Type) (f : A -> option B) (l1 l2 : list A) :
  collect f (l1 ++ l2) = (collect f l1 ++ collect f l2)%list.
Proof.
  induction l1 as [|x l1 IH]; [reflexivity|].
  cbn [app collect]. rewrite IH. now destruct (f x).
Qed.

Lemma collect_skip (A B : Type) (f : A -> option B) (l1 l2 : list A) (x : A) :
  f x = None -> collect f (l1 ++ x :: l2) = collect f (l1 ++ l2).
Proof.
  intros Hx. rewrite !collect_app. cbn [collect]. now rewrite Hx.
Qed.

(** An element that is not a dict changes nothing, wherever it stands in
    the list and whichever of the three shapes the payload has; under
    [data] the same holds for a dict that has no [id].  The remaining
    elements keep their order. *)
Theorem extract_ignores_other_elements (x : value) (l1 l2 : list value)
    (d : list (string * value)) :
  (is_dict x = false ->
   _extract_model_ids (VList (l1 ++ x :: l2)) = _extract_model_ids (VList (l1 ++ l2))) /\
  (is_dict x = false \/ (exists dx, x = VDict dx /\ dict_mem "id" dx = false) ->
   dict_lookup "data" d = Some (VList (l1 ++ x :: l2)) ->
   _extract_model_ids (VDict d)
   = _extract_model_ids (VDict (dict_set "data" (VList (l1 ++ l2)) d))) /\
  (is_dict x = false ->
   (forall l, dict_lookup "data" d <> Some (VList l)) ->
   dict_lookup "models" d = Some (VList (l1 ++ x :: l2)) ->
   _extract_model_ids (VDict d)
   = _extract_model_ids (VDict (dict_set "models" (VList (l1 ++ l2)) d))).
Proof.
  assert (Hnamed : is_dict x = false -> named_entry x = None).
  { now destruct x. }
  assert (Hdata : is_dict x = false \/ (exists dx, x = VDict dx /\ dict_mem "id" dx = false) ->
                  data_entry x = None).
  { intros [Hx | [dx [-> Hid]]]; [now destruct x | cbn; now rewrite Hid]. }
  split; [|split].
  - intros Hx. cbn [_extract_model_ids]. apply collect_skip. now apply Hnamed.
  - intros Hx Hd. cbn [_extract_model_ids].
    rewrite Hd, dict_lookup_set_same. apply collect_skip. now apply Hdata.
  - intros Hx Hnodata Hm. cbn [_extract_model_ids].
    rewrite (dict_lookup_set_other _ "models" "data") by discriminate.
    rewrite Hm, dict_lookup_set_same.
    destruct (dict_lookup "data" d) as [[| | | | |l|]|] eqn:E;
      try (apply collect_skip; now apply Hnamed).
    now contradiction (Hnodata l).
Qed.

(** [_pick_model] returns nothing exactly when the list is empty, and
    what it returns is always one of the given ids, whatever the hint. *)
Theorem pick_model_member (ids : list string) (hint : string) :
  (_pick_model ids hint = None <-> ids = []) /\
  (forall mid : string, _pick_model ids hint = Some mid -> In mid ids).
Proof.
  split.
  - unfold _pick_model. destruct ids as [|first rest]; [now split|].
    split; [|discriminate].
    destruct (hint =? EmptyString)%string; [discriminate|].
    now destruct (first_match hint (first :: rest)).
  - intros mid. apply pick_model_In.
Qed.

Lemma first_match_lower (h h' : string) (ids : list string) :
  str_lower h = str_lower h' -> first_match h ids = first_match h' ids.
Proof.
  intros Heq. induction ids as [|x ids IH]; [reflexivity|].
  cbn [first_match]. now rewrite Heq, IH.
Qed.

(** The hint is matched without regard to case: two non-empty hints with
    the same lowercase form select the same id from every list. *)
Theorem pick_model_hint_case (ids : list string) (h h' : string) :
  h <> EmptyString -> h' <> EmptyString ->
  str_lower h = str_lower h' ->
  _pick_model ids h = _pick_model ids h'.
Proof.
  intros Hh Hh' Heq. unfold _pick_model.
  destruct ids as [|first rest]; [reflexivity|].
  apply String.eqb_neq in Hh, Hh'. rewrite Hh, Hh'.
  now rewrite (first_match_lower h h' _ Heq).
Qed.

End MoreHelperFacts.

(** ** Whole runs of the prober *)

Section RunFacts.
Context {RT : PyRuntime} {NW : Network}.

(** A result comes from the turn of its base, reached after the bases
    before it gave nothing. *)
Lemma loop_found_inv (bases : list string) (api_key model_hint : string)
    (timeout_s : seconds) (notes notes' : list string) (w w' : World)
    (r : ProbeResult) (tr : list Exchange) :
  probe_loop bases api_key model_hint timeout_s notes w
  = (Returned (Some r, notes'), w', tr) ->
  exists (pre post notes1 ns : list string) (w1 : World) (t1 tc : list Exchange),
    bases = (pre ++ api_base r :: post)%list /\
    probe_loop pre api_key model_hint timeout_s notes w = (Returned (None, notes1), w1, t1) /\
    probe_candidate (api_base r) api_key model_hint timeout_s w1
    = (Returned (Some r, ns), w', tc) /\
    notes' = (notes1 ++ ns)%list /\
    tr = (t1 ++ tc)%list.
Proof.
  revert notes w tr. induction bases as [|base rest IH]; intros notes w tr.
  - cbn. discriminate.
  - rewrite probe_loop_cons.
    destruct (probe_candidate base api_key model_hint timeout_s w)
      as [[[[[r0|] ns]|e] wc] tc] eqn:Hc; try discriminate.
    + intros H. injection H as <- <- <- <-.
      destruct (candidate_success _ _ _ _ _ _ _ _ _ Hc) as [Hb _]. subst base.
      exists [], rest, notes, ns, w, [], tc. repeat split. exact Hc.
    + destruct (probe_loop rest api_key model_hint timeout_s (notes ++ ns) wc)
        as [[o w''] t''] eqn:E.
      cbn. intros H. injection H as -> -> <-.
      destruct (IH _ _ _ E) as [pre [post [notes1 [ns1 [w1 [t1 [tc1 H]]]]]]].
      destruct H as [-> [Hpre [Hcand [-> ->]]]].
      exists (base :: pre), post, notes1, ns1, w1, (tc ++ t1)%list, tc1.
      repeat split; try assumption.
      * rewrite probe_loop_cons, Hc, Hpre. reflexivity.
      * now rewrite app_assoc.
Qed.

Lemma candidate_notes (base api_key model_hint : string) (timeout_s : seconds) (w : World) :
  (1 <= List.length (snd (probe_candidate base api_key model_hint timeout_s w)) <= 3)%nat /\
  (forall res ns,
     fst (fst (probe_candidate base api_key model_hint timeout_s w)) = Returned (res, ns) ->
     map exchange_note (snd (probe_candidate base api_key model_hint timeout_s w))
     = map Some ns).
Proof.
  rewrite probe_candidate_unfold. unfold candidate_trace.
  destruct (urlopen _ w) as [oc1 w1].
  destruct (http_result oc1) as [r1|e1] eqn:H1.
  2: { cbn. split; [lia | discriminate]. }
  assert (N1 : exchange_note (models_request base api_key timeout_s, oc1)
               = Some (models_note base r1)).
  { unfold exchange_note. cbn [fst snd]. now rewrite H1. }
  destruct (selected r1 model_hint) as [[m|]|e].
  2: { cbn [fst snd List.length map]. split; [lia|].
       intros res ns H. injection H as <- <-. now rewrite N1. }
  2: { cbn. split; [lia | discriminate]. }
  destruct (urlopen _ w1) as [oc2 w2].
  destruct (http_result oc2) as [r2|e2] eqn:H2.
  2: { cbn. split; [lia | discriminate]. }
  assert (N2 : exchange_note (chat_request base api_key m timeout_s, oc2)
               = Some (chat_note base r2)).
  { unfold exchange_note. cbn [fst snd]. now rewrite H2. }
  destruct (usable r2) as [[|]|e].
  { cbn [fst snd List.length map]. split; [lia|].
    intros res ns H. injection H as <- <-. now rewrite N1, N2. }
  2: { cbn. split; [lia | discriminate]. }
  destruct (urlopen _ w2) as [oc3 w3].
  destruct (http_result oc3) as [r3|e3] eqn:H3.
  2: { cbn. split; [lia | discriminate]. }
  assert (N3 : exchange_note (legacy_request base api_key m timeout_s, oc3)
               = Some (legacy_note base r3)).
  { unfold exchange_note. cbn [fst snd]. now rewrite H3. }
  destruct (usable r3) as [ok3|e].
  2: { cbn. split; [lia | discriminate]. }
  cbn [fst snd List.length map]. split; [lia|].
  intros res ns H. injection H as <- <-. now rewrite N1, N2, N3.
Qed.

Lemma loop_notes (bases : list string) (api_key model_hint : string)
    (timeout_s : seconds) (notes : list string) (w : World) :
  (List.length (snd (probe_loop bases api_key model_hint timeout_s notes w))
   <= 3 * List.length bases)%nat /\
  (forall res notes',
     fst (fst (probe_loop bases api_key model_hint timeout_s notes w))
     = Returned (res, notes') ->
     exists ns : list string,
       notes' = (notes ++ ns)%list /\
       map exchange_note (snd (probe_loop bases api_key model_hint timeout_s notes w))
       = map Some ns).
Proof.
  revert notes w. induction bases as [|base rest IH]; intros notes w.
  - cbn. split; [lia|]. intros res notes' H. injection H as <- <-.
    exists []. now rewrite app_nil_r.
  - rewrite probe_loop_cons.
    destruct (candidate_notes base api_key model_hint timeout_s w) as [Hlen Hns].
    destruct (probe_candidate base api_key model_hint timeout_s w)
      as [[[[[r|] ns]|e] wc] tc]; cbn [fst snd] in Hlen, Hns.
    + cbn [fst snd List.length]. split; [lia|].
      intros res notes' H. injection H as <- <-. exists ns. split; [reflexivity|].
      now apply (Hns (Some r) ns).
    + specialize (IH (notes ++ ns)%list wc). destruct IH as [IHlen IHns].
      destruct (probe_loop rest api_key model_hint timeout_s (notes ++ ns) wc)
        as [[o w''] t'']. cbn [after fst snd List.length] in *.
      split; [rewrite length_app; lia|].
      intros res notes' H. destruct (IHns _ _ H) as [ns' [-> Hmap]].
      exists (ns ++ ns')%list. split; [now rewrite app_assoc|].
      rewrite !map_app, Hmap. f_equal. now apply (Hns None ns).
    + cbn [fst snd List.length]. split; [lia | discriminate].
Qed.

(** The notes are a faithful log: when [_best_effort_probe] returns, its
    notes are, in order, the notes [url -> status] of exactly the calls it
    made, one per call; and no run makes more than fifteen calls. *)
Theorem notes_mirror_calls (host : string) (port : Z) (api_key model_hint : string)
    (timeout_s : seconds) (w : World) :
  (List.length (snd (_best_effort_probe host port api_key model_hint timeout_s w))
   <= 15)%nat /\
  (forall (res : option ProbeResult) (notes : list string),
     fst (fst (_best_effort_probe host port api_key model_hint timeout_s w))
     = Returned (res, notes) ->
     map exchange_note (snd (_best_effort_probe host port api_key model_hint timeout_s w))
     = map Some notes /\
     List.length notes
     = List.length (snd (_best_effort_probe host port api_key model_hint timeout_s w))).
Proof.
  unfold _best_effort_probe.
  destruct (loop_notes (_candidate_api_bases host port) api_key model_hint timeout_s [] w)
    as [Hlen Hns].
  split; [exact Hlen|].
  intros res notes H. destruct (Hns _ _ H) as [ns [-> Hmap]]. cbn [app].
  split; [exact Hmap|].
  apply (f_equal (@List.length _)) in Hmap. rewrite !length_map in Hmap. now rewrite Hmap.
Qed.

End RunFacts.

Section RunShape.
Context {RT : PyRuntime} {NW : Network}.

(** Every request of a run goes to [http://host:port], to one of the
    three paths under a candidate base, carries the bearer token and the
    JSON content type and the given timeout; a listing is a [GET] without
    body, a completion probe a [POST] with the payload for a non-empty
    model.  Nothing else is ever sent. *)
Theorem every_request_shape (host : string) (port : Z) (api_key model_hint : string)
    (timeout_s : seconds) (w : World) :
  Forall
    (fun x : Exchange =>
       req_headers (fst x)
       = [("Authorization", "Bearer " ++ api_key); ("Content-Type", "application/json")] /\
       req_timeout (fst x) = timeout_s /\
       exists base suffix : string,
         In base (_candidate_api_bases host port) /\
         base = "http://" ++ host ++ ":" ++ str_of_int port ++ suffix /\
         ((req_method (fst x) = "GET" /\ req_data (fst x) = None /\
           req_url (fst x) = base ++ "/models") \/
          (req_method (fst x) = "POST" /\
           exists m : string,
             m <> EmptyString /\
             ((req_url (fst x) = base ++ "/chat/completions" /\
               req_data (fst x) = Some (_chat_payload m)) \/
              (req_url (fst x) = base ++ "/completions" /\
               req_data (fst x) = Some (_legacy_payload m))))))
    (snd (_best_effort_probe host port api_key model_hint timeout_s w)).
Proof.
  unfold _best_effort_probe.
  eapply Forall_impl;
    [|apply (loop_requests (_candidate_api_bases host port) api_key model_hint timeout_s [] w)].
  intros [rq oc] [base [Hin Hreq]]. cbn [fst] in *.
  pose proof (candidate_no_slash host port base Hin) as Hns.
  assert (Hsuffix : exists suffix, base = "http://" ++ host ++ ":" ++ str_of_int port ++ suffix).
  { revert Hin. unfold _candidate_api_bases. cbv zeta.
    intros [<- | [<- | [<- | [<- | [<- | []]]]]].
    + exists "/api". now rewrite !append_assoc.
    + exists "/v1". now rewrite !append_assoc.
    + exists "/api/openai/v1". now rewrite !append_assoc.
    + exists "/api/openai/v1". now rewrite !append_assoc.
    + exists EmptyString. now rewrite append_empty_r. }
  destruct Hsuffix as [suffix Hsuffix].
  assert (Hjoin : forall p, startswith p "/" = true -> _join base p = base ++ p).
  { intros p Hp. unfold _join. now rewrite Hns, Hp. }
  destruct Hreq as [-> | [m [Hne [-> | ->]]]]; cbn [req_headers req_timeout req_method
    req_data req_url models_request chat_request legacy_request];
    (split; [reflexivity|]); (split; [reflexivity|]);
    exists base, suffix; (split; [exact Hin|]); (split; [exact Hsuffix|]).
  - left. repeat split. now apply Hjoin.
  - right. split; [reflexivity|]. exists m. split; [exact Hne|]. left.
    split; [now apply Hjoin | reflexivity].
  - right. split; [reflexivity|]. exists m. split; [exact Hne|]. right.
    split; [now apply Hjoin | reflexivity].
Qed.

Lemma usable_true_inv (resp : HttpResponse) :
  usable resp = Returned true ->
  status resp = 200 /\ exists v : value, _try_json resp = Returned v /\ v <> VNone.
Proof.
  unfold usable. destruct (status resp =? 200) eqn:Hst; [|discriminate].
  apply Z.eqb_eq in Hst. destruct (_try_json resp) as [v|e]; [|discriminate].
  intros H. injection H as Hv. split; [exact Hst|].
  exists v. split; [reflexivity|]. intros ->. discriminate.
Qed.

Lemma usable_false_inv (resp : HttpResponse) :
  usable resp = Returned false -> status resp <> 200 \/ _try_json resp = Returned VNone.
Proof.
  unfold usable. destruct (status resp =? 200) eqn:Hst.
  - destruct (_try_json resp) as [v|e]; [|discriminate].
    intros H. injection H as Hv. right. now destruct v.
  - intros _. left. now apply Z.eqb_neq.
Qed.

(** The flag of a result tells which probe succeeded.  With the flag off,
    the run ends with the listing of the result's base and its chat probe,
    answered with status 200 and a body that decodes to a value other than
    [None].  With the flag on, the chat probe of that base was answered
    but not so, and the run ends with the legacy probe, answered with
    status 200 and such a body.  Both probes name the result's model, which
    is never the empty str. *)
Theorem result_flag_sound (host : string) (port : Z) (api_key model_hint : string)
    (timeout_s : seconds) (w w' : World) (r : ProbeResult) (notes : list string)
    (tr : list Exchange) :
  _best_effort_probe host port api_key model_hint timeout_s w
  = (Returned (Some r, notes), w', tr) ->
  model r <> EmptyString /\
  exists (t0 : list Exchange) (oc1 oc2 : UrlopenOutcome) (resp2 : HttpResponse),
    http_result oc2 = Returned resp2 /\
    if use_legacy_completions_endpoint r then
      (status resp2 <> 200 \/ _try_json resp2 = Returned VNone) /\
      exists (oc3 : UrlopenOutcome) (resp3 : HttpResponse),
        http_result oc3 = Returned resp3 /\
        status resp3 = 200 /\
        (exists v3 : value, _try_json resp3 = Returned v3 /\ v3 <> VNone) /\
        tr = (t0 ++ [(models_request (api_base r) api_key timeout_s, oc1);
                     (chat_request (api_base r) api_key (model r) timeout_s, oc2);
                     (legacy_request (api_base r) api_key (model r) timeout_s, oc3)])%list
    else
      status resp2 = 200 /\
      (exists v2 : value, _try_json resp2 = Returned v2 /\ v2 <> VNone) /\
      tr = (t0 ++ [(models_request (api_base r) api_key timeout_s, oc1);
                   (chat_request (api_base r) api_key (model r) timeout_s, oc2)])%list.
Proof.
  unfold _best_effort_probe. intros H.
  destruct (loop_found_inv _ _ _ _ _ _ _ _ _ _ H)
    as [pre [post [notes1 [ns [w1 [t1 [tc [_ [_ [Hc [_ ->]]]]]]]]]]].
  rewrite probe_candidate_unfold in Hc. unfold candidate_trace in Hc.
  destruct (urlopen _ w1) as [oc1 w2].
  destruct (http_result oc1) as [r1|e1]; [|discriminate].
  destruct (selected r1 model_hint) as [[m|]|e] eqn:Hs; try discriminate.
  apply selected_some in Hs. destruct Hs as [_ [_ Hne]].
  destruct (urlopen _ w2) as [oc2 w3].
  destruct (http_result oc2) as [r2|e2] eqn:H2; [|discriminate].
  destruct (usable r2) as [[|]|e] eqn:U2; [| |discriminate].
  - injection Hc as <- _ _ <-. cbn [use_legacy_completions_endpoint api_base model].
    split; [exact Hne|].
    exists t1, oc1, oc2, r2. split; [exact H2|].
    destruct (usable_true_inv _ U2) as [Hst Hv]. now repeat split.
  - destruct (urlopen _ w3) as [oc3 w4].
    destruct (http_result oc3) as [r3|e3] eqn:H3; [|discriminate].
    destruct (usable r3) as [[|]|e] eqn:U3; try discriminate.
    injection Hc as <- _ _ <-. cbn [use_legacy_completions_endpoint api_base model].
    split; [exact Hne|].
    exists t1, oc1, oc2, r2. split; [exact H2|].
    split; [now apply usable_false_inv|].
    exists oc3, r3. destruct (usable_true_inv _ U3) as [Hst Hv]. now repeat split.
Qed.

(** *** The order in which candidates are tried *)

Lemma listings_app (t1 t2 : list Exchange) :
  listings (t1 ++ t2) = (listings t1 ++ listings t2)%list.
Proof. unfold listings. now rewrite map_app, filter_app. Qed.

Lemma candidate_listings (base api_key model_hint : string) (timeout_s : seconds)
    (w : World) :
  listings (snd (probe_candidate base api_key model_hint timeout_s w))
  = [models_request base api_key timeout_s].
Proof.
  rewrite probe_candidate_unfold. unfold candidate_trace.
  destruct (urlopen _ w) as [oc1 w1].
  destruct (http_result oc1) as [r1|e1]; [|reflexivity].
  destruct (selected r1 model_hint) as [[m|]|e]; [|reflexivity|reflexivity].
  destruct (urlopen _ w1) as [oc2 w2].
  destruct (http_result oc2) as [r2|e2]; [|reflexivity].
  destruct (usable r2) as [[|]|e]; [reflexivity| |reflexivity].
  destruct (urlopen _ w2) as [oc3 w3].
  destruct (http_result oc3) as [r3|e3]; [|reflexivity].
  destruct (usable r3) as [ok3|e]; reflexivity.
Qed.

Lemma loop_listings (bases : list string) (api_key model_hint : string)
    (timeout_s : seconds) (notes : list string) (w : World) :
  exists pre post : list string,
    bases = (pre ++ post)%list /\
    listings (snd (probe_loop bases api_key model_hint timeout_s notes w))
    = map (fun b => models_request b api_key timeout_s) pre /\
    (bases <> [] -> pre <> []) /\
    (forall notes',
       fst (fst (probe_loop bases api_key model_hint timeout_s notes w))
       = Returned (None, notes') -> post = []).
Proof.
  revert notes w. induction bases as [|base rest IH]; intros notes w.
  - exists [], []. cbn. repeat split. intros H. now contradiction H.
  - rewrite probe_loop_cons.
    pose proof (candidate_listings base api_key model_hint timeout_s w) as Hl.
    destruct (probe_candidate base api_key model_hint timeout_s w)
      as [[[[[r|] ns]|e] wc] tc]; cbn [snd] in Hl.
    + exists [base], rest. cbn [fst snd map app]. repeat split; try assumption; discriminate.
    + destruct (IH (notes ++ ns)%list wc) as [pre [post [-> [Hls [_ Hnone]]]]].
      destruct (probe_loop (pre ++ post) api_key model_hint timeout_s (notes ++ ns) wc)
        as [[o w''] t'']. cbn [after fst snd] in *.
      exists (base :: pre), post. rewrite listings_app, Hl, Hls.
      repeat split; try assumption; discriminate.
    + exists [base], rest. cbn [fst snd map app]. repeat split; try assumption; discriminate.
Qed.

(** Candidates are listed strictly in their fixed order, each position
    once: the [GET] requests of a run are the listing requests of an
    initial segment of the five candidates, never empty, and the whole
    list (the duplicate base listed twice) whenever the run returns without
    a result. *)
Theorem candidates_listed_in_order (host : string) (port : Z)
    (api_key model_hint : string) (timeout_s : seconds) (w : World) :
  exists pre post : list string,
    _candidate_api_bases host port = (pre ++ post)%list /\
    pre <> [] /\
    listings (snd (_best_effort_probe host port api_key model_hint timeout_s w))
    = map (fun b => models_request b api_key timeout_s) pre /\
    (forall notes,
       fst (fst (_best_effort_probe host port api_key model_hint timeout_s w))
       = Returned (None, notes) -> post = []).
Proof.
  unfold _best_effort_probe.
  destruct (loop_listings (_candidate_api_bases host port) api_key model_hint timeout_s [] w)
    as [pre [post [Hb [Hl [Hne Hnone]]]]].
  exists pre, post. repeat split; try assumption.
  apply Hne. discriminate.
Qed.

End RunShape.

(** ** The duplicated candidate *)

Section Duplicate.
Context {RT : PyRuntime} {NW : Network}.

Lemma found_after (t1 : list Exchange)
    (r : outcome (option ProbeResult * list string) * World * list Exchange) :
  found (after t1 r) = found r.
Proof. now destruct r as [[o w] t]. Qed.

(** On a history-free network a turn ends the same way from every world. *)
Lemma candidate_history_free (base api_key model_hint : string) (timeout_s : seconds)
    (w w' : World) :
  history_free ->
  fst (fst (probe_candidate base api_key model_hint timeout_s w))
  = fst (fst (probe_candidate base api_key model_hint timeout_s w')).
Proof.
  intros Hfree. rewrite !probe_candidate_unfold. unfold candidate_trace.
  pose proof (Hfree (models_request base api_key timeout_s) w w') as E1.
  destruct (urlopen _ w) as [oc1 w1]. destruct (urlopen _ w') as [oc1' w1'].
  cbn [fst] in E1. subst oc1'.
  destruct (http_result oc1) as [r1|e1]; [|reflexivity].
  destruct (selected r1 model_hint) as [[m|]|e]; [|reflexivity|reflexivity].
  pose proof (Hfree (chat_request base api_key m timeout_s) w1 w1') as E2.
  destruct (urlopen _ w1) as [oc2 w2]. destruct (urlopen _ w1') as [oc2' w2'].
  cbn [fst] in E2. subst oc2'.
  destruct (http_result oc2) as [r2|e2]; [|reflexivity].
  destruct (usable r2) as [[|]|e]; [reflexivity| |reflexivity].
  pose proof (Hfree (legacy_request base api_key m timeout_s) w2 w2') as E3.
  destruct (urlopen _ w2) as [oc3 w3]. destruct (urlopen _ w2') as [oc3' w3'].
  cbn [fst] in E3. subst oc3'.
  destruct (http_result oc3) as [r3|e3]; [|reflexivity].
  destruct (usable r3) as [ok3|e]; reflexivity.
Qed.

Lemma loop_history_free (bases : list string) (api_key model_hint : string)
    (timeout_s : seconds) (notes notes' : list string) (w w' : World) :
  history_free ->
  found (probe_loop bases api_key model_hint timeout_s notes w)
  = found (probe_loop bases api_key model_hint timeout_s notes' w').
Proof.
  intros Hfree. revert notes notes' w w'.
  induction bases as [|base rest IH]; intros notes notes' w w'; [reflexivity|].
  rewrite !probe_loop_cons.
  pose proof (candidate_history_free base api_key model_hint timeout_s w w' Hfree) as E.
  destruct (probe_candidate base api_key model_hint timeout_s w)
    as [[[[[r|] ns]|e] wc] tc];
    destruct (probe_candidate base api_key model_hint timeout_s w')
      as [[[[[r'|] ns']|e'] wc'] tc'];
    cbn [fst] in E; try discriminate E.
  - injection E as <- _. reflexivity.
  - rewrite !found_after. apply IH.
  - injection E as <-. reflexivity.
Qed.

Lemma loop_twice (base : string) (rest : list string) (api_key model_hint : string)
    (timeout_s : seconds) (notes : list string) (w : World) :
  history_free ->
  found (probe_loop (base :: base :: rest) api_key model_hint timeout_s notes w)
  = found (probe_loop (base :: rest) api_key model_hint timeout_s notes w).
Proof.
  intros Hfree. rewrite (probe_loop_cons base (base :: rest)).
  destruct (probe_candidate base api_key model_hint timeout_s w)
    as [[[[[r|] ns]|e] wc] tc] eqn:Hc.
  - rewrite probe_loop_cons, Hc. reflexivity.
  - rewrite found_after. now apply loop_history_free.
  - rewrite probe_loop_cons, Hc. reflexivity.
Qed.

Lemma loop_same_tail (pre l1 l2 : list string) (api_key model_hint : string)
    (timeout_s : seconds) (notes : list string) (w : World) :
  (forall n w0,
     found (probe_loop l1 api_key model_hint timeout_s n w0)
     = found (probe_loop l2 api_key model_hint timeout_s n w0)) ->
  found (probe_loop (pre ++ l1) api_key model_hint timeout_s notes w)
  = found (probe_loop (pre ++ l2) api_key model_hint timeout_s notes w).
Proof.
  intros Htail. revert notes w. induction pre as [|base pre IH]; intros notes w.
  - apply Htail.
  - cbn [app]. rewrite !probe_loop_cons.
    destruct (probe_candidate base api_key model_hint timeout_s w)
      as [[[[[r|] ns]|e] wc] tc]; try reflexivity.
    rewrite !found_after. apply IH.
Qed.

(** On a network whose answers do not depend on earlier requests the
    duplicated candidate base is redundant: [_best_effort_probe] finds the
    same result, or raises the same error, as a pass over the four distinct
    bases; only the notes differ. *)
Theorem duplicate_candidate_redundant (host : string) (port : Z)
    (api_key model_hint : string) (timeout_s : seconds) (w : World) :
  history_free ->
  found (_best_effort_probe host port api_key model_hint timeout_s w)
  = found (probe_loop
             [ "http://" ++ host ++ ":" ++ str_of_int port ++ "/api";
               "http://" ++ host ++ ":" ++ str_of_int port ++ "/v1";
               "http://" ++ host ++ ":" ++ str_of_int port ++ "/api/openai/v1";
               "http://" ++ host ++ ":" ++ str_of_int port ]
             api_key model_hint timeout_s [] w).
Proof.
  intros Hfree. unfold _best_effort_probe, _candidate_api_bases. cbv zeta.
  rewrite !append_assoc.
  set (a := "http://" ++ host ++ ":" ++ str_of_int port ++ "/api").
  set (b := "http://" ++ host ++ ":" ++ str_of_int port ++ "/v1").
  set (c := "http://" ++ host ++ ":" ++ str_of_int port ++ "/api/openai/v1").
  set (e := "http://" ++ host ++ ":" ++ str_of_int port).
  apply (loop_same_tail [a; b] [c; c; e] [c; e]).
  intros n w0. now apply loop_twice.
Qed.

End Duplicate.

(** ** The entry point *)

Section MainFacts.
Context {RT : PyRuntime} {NW : Network}.



End MainFacts.

(** ** Loading the [.env] file *)

Section LoadEnvFacts.
Context {EV : Environ}.
Variable str_strip : string -> string.

(** What the program relies on from [os.environ]: storing a new name
    leaves the names that are set, and their values, as they are, and the
    stored name is then set to the stored value. *)
Hypothesis setitem_keeps :
  forall (k v : string) (e e1 : Env) (k' : string),
    env_setitem k v e = Some e1 -> env_mem k e = false -> env_mem k' e = true ->
    env_mem k' e1 = true /\ env_get k' e1 = env_get k' e.
Hypothesis setitem_stores :
  forall (k v : string) (e e1 : Env),
    env_setitem k v e = Some e1 -> env_mem k e1 = true /\ env_get k e1 = Some v.

Lemma load_lines_keeps (lines : list string) (e e' : Env) (k : string) :
  load_lines str_strip lines e = Some e' ->
  env_mem k e = true ->
  env_mem k e' = true /\ env_get k e' = env_get k e.
Proof.
  revert e. induction lines as [|raw rest IH]; intros e Hload Hk.
  - cbn in Hload. injection Hload as <-. now split.
  - cbn [load_lines] in Hload. cbv zeta in Hload.
    destruct ((str_strip raw =? EmptyString)%string || startswith (str_strip raw) "#");
      [now apply IH|].
    destruct (str_contains "=" (str_strip raw)); [|now apply IH].
    destruct (partition_at "=" (str_strip raw)) as [key val].
    unfold env_setdefault in Hload.
    destruct (env_mem (str_strip key) e) eqn:Hm; [now apply IH|].
    destruct (env_setitem (str_strip key) (str_strip val) e) as [e1|] eqn:Hs;
      [|discriminate].
    destruct (setitem_keeps _ _ _ _ k Hs Hm Hk) as [Hk1 Hg1].
    destruct (IH e1 Hload Hk1) as [Hk' Hg']. split; [exact Hk'|]. now rewrite Hg'.
Qed.

(** The environment wins over the file: a variable that is set when
    [_load_env] starts is still set, to the same value, when it returns,
    whatever the file holds. *)
Theorem load_env_keeps_existing (file : option (list string)) (e e' : Env) (k : string) :
  _load_env str_strip file e = Some e' ->
  env_mem k e = true ->
  env_mem k e' = true /\ env_get k e' = env_get k e.
Proof.
  destruct file as [lines|]; cbn [_load_env].
  - apply load_lines_keeps.
  - intros H Hk. injection H as <-. now split.
Qed.

(** Within the file the first assignment wins: when the loop reaches a
    line that assigns [v] to a name not yet set, that name has the value
    [v] when [_load_env] returns, whatever the lines after it say. *)
Theorem load_env_first_wins (raw : string) (rest : list string) (e e' : Env)
    (key v : string) :
  assignment str_strip raw = Some (key, v) ->
  env_mem key e = false ->
  _load_env str_strip (Some (raw :: rest)) e = Some e' ->
  env_get key e' = Some v.
Proof.
  unfold assignment. cbn [_load_env load_lines]. cbv zeta.
  destruct ((str_strip raw =? EmptyString)%string || startswith (str_strip raw) "#");
    [discriminate|].
  destruct (str_contains "=" (str_strip raw)); [|discriminate].
  destruct (partition_at "=" (str_strip raw)) as [k0 v0].
  intros H Hm Hload. injection H as <- <-.
  unfold env_setdefault in Hload. rewrite Hm in Hload.
  destruct (env_setitem (str_strip k0) (str_strip v0) e) as [e1|] eqn:Hs; [|discriminate].
  destruct (setitem_stores _ _ _ _ Hs) as [Hm1 Hg1].
  destruct (load_lines_keeps rest e1 e' (str_strip k0) Hload Hm1) as [_ Hg].
  now rewrite Hg.
Qed.

End LoadEnvFacts.

(** The two facts about [os.environ] hold of the sample environment. *)
Lemma sample_setitem_keeps (k v : string) (e e1 : list (string * string)) (k' : string) :
  env_setitem (Environ := SampleEnv.environ) k v e = Some e1 ->
  env_mem (Environ := SampleEnv.environ) k e = false ->
  env_mem (Environ := SampleEnv.environ) k' e = true ->
  env_mem (Environ := SampleEnv.environ) k' e1 = true /\
  env_get (Environ := SampleEnv.environ) k' e1 = env_get (Environ := SampleEnv.environ) k' e.
Proof.
  cbn. destruct (k =? EmptyString)%string; [discriminate|].
  intros H Hk Hk'. injection H as <-.
  assert (Hne : k' <> k).
  { intros ->. rewrite Hk in Hk'. discriminate. }
  unfold dict_mem in *. rewrite (dict_lookup_set_other _ k k' v e Hne). now split.
Qed.

Lemma sample_setitem_stores (k v : string) (e e1 : list (string * string)) :
  env_setitem (Environ := SampleEnv.environ) k v e = Some e1 ->
  env_mem (Environ := SampleEnv.environ) k e1 = true /\
  env_get (Environ := SampleEnv.environ) k e1 = Some v.
Proof.
  cbn. destruct (k =? EmptyString)%string; [discriminate|].
  intros H. injection H as <-. unfold dict_mem.
  now rewrite dict_lookup_set_same.
Qed.

(** * Further sample runs *)

Section MoreSampleRuns.
Local Open Scope string_scope.

Example load_env_sample :
  _load_env (EV := SampleEnv.environ) SampleEnv.strip (Some SampleEnv.dotenv)
    SampleEnv.shell_env
  = Some [ ("PROBE_API_KEY", "sk-shell"); ("HOME", "/root");
           ("PROBE_HOST", "10.0.0.5"); ("PROBE_DEBUG", "yes") ].
Proof. vm_compute. reflexivity. Qed.

(** A line that would store the empty name stops the loading. *)
Example load_env_empty_name :
  _load_env (EV := SampleEnv.environ) SampleEnv.strip (Some ["=value"; "A=1"]) [] = None.
Proof. vm_compute. reflexivity. Qed.

Example main_not_found_sample :
  fst (fst (main (RT := runtime) (NW := bare_net)
              (mkNamespace host 8080 api_key hint "Local Assistant" "LLama3"
                 (3 : seconds (Network := bare_net)) false) 0%nat))
  = Returned (Some (mkFinished 2 EmptyString [error_line; tip_line])).
Proof. vm_compute. reflexivity. Qed.

Example main_found_debug_sample :
  match fst (fst (main (RT := runtime) (NW := chat_net)
                    (mkNamespace host 8080 api_key hint "Local Assistant" "LLama3"
                       (3 : seconds (Network := chat_net)) true) 0%nat)) with
  | Returned (Some fin) =>
      exit_code fin = 0 /\
      stderr fin = [ "# http://127.0.0.1:8080/api/models -> 200";
                     "# http://127.0.0.1:8080/api/chat/completions -> 200" ] /\
      Some (stdout fin)
      = _render_yaml (mkProbeResult "http://127.0.0.1:8080/api" "llama3:latest" false)
          api_key "Local Assistant" "LLama3"
  | _ => False
  end.
Proof. vm_compute. repeat split. Qed.

Example main_raises_sample :
  fst (fst (main (RT := runtime) (NW := slow_net)
              (mkNamespace host 8080 api_key hint "Local Assistant" "LLama3"
                 (3 : seconds (Network := slow_net)) true) 0%nat))
  = Raised TimeoutError.
Proof. vm_compute. reflexivity. Qed.

Lemma join_single_slash_witness :
  _join "http://localhost:3000/api" "models" = "http://localhost:3000/api/models" /\
  _join "http://localhost:3000/api/" "models" = "http://localhost:3000/api/models" /\
  _join "http://localhost:3000/api" "/models" = "http://localhost:3000/api/models" /\
  _join "http://localhost:3000/api/" "/models" = "http://localhost:3000/api/models".
Proof.
  apply (join_single_slash "http://localhost:3000/api" "models"); reflexivity.
Defined.

Lemma candidate_urls_witness :
  (exists suffix : string,
     "http://localhost:3000/v1" = "http://" ++ "localhost" ++ ":" ++ str_of_int 3000 ++ suffix) /\
  _join "http://localhost:3000/v1" "/models" = "http://localhost:3000/v1" ++ "/models" /\
  _join "http://localhost:3000/v1" "/chat/completions"
  = "http://localhost:3000/v1" ++ "/chat/completions" /\
  _join "http://localhost:3000/v1" "/completions" = "http://localhost:3000/v1" ++ "/completions".
Proof.
  apply (candidate_urls "localhost" 3000 "http://localhost:3000/v1").
  vm_compute. right. left. reflexivity.
Defined.

(** A key with a double quote and a backslash in it. *)
Lemma yaml_quote_round_trip_witness :
  yaml_unquote (_yaml_quote (String "k" (String dquote (String backslash "1"))))
  = Some (String "k" (String dquote (String backslash "1"))) /\
  "k" ++ String dquote (String backslash "1") = String "k" (String dquote (String backslash "1")).
Proof.
  split.
  - apply (proj1 (yaml_quote_round_trip (String "k" (String dquote (String backslash "1"))))).
  - apply (proj2 (yaml_quote_round_trip (String "k" (String dquote (String backslash "1"))))).
    reflexivity.
Defined.

(** The number 3 between two model entries, in each shape. *)
Lemma extract_ignores_other_elements_witness :
  _extract_model_ids (RT := runtime)
    (VList [VDict [("id", VStr "a")]; VInt 3; VDict [("name", VStr "b")]])
  = ["a"; "b"] /\
  _extract_model_ids (RT := runtime)
    (VDict [("data", VList [VDict [("id", VStr "a")]; VDict [("name", VStr "x")];
                            VDict [("id", VStr "b")]])])
  = ["a"; "b"] /\
  _extract_model_ids (RT := runtime)
    (VDict [("models", VList [VDict [("id", VStr "a")]; VInt 3; VDict [("name", VStr "b")]])])
  = ["a"; "b"].
Proof.
  split; [|split].
  - etransitivity;
      [exact (proj1 (extract_ignores_other_elements (RT := runtime) (VInt 3)
                       [VDict [("id", VStr "a")]] [VDict [("name", VStr "b")]] [])
                eq_refl)
      | reflexivity].
  - etransitivity;
      [exact (proj1 (proj2 (extract_ignores_other_elements (RT := runtime)
                              (VDict [("name", VStr "x")])
                              [VDict [("id", VStr "a")]] [VDict [("id", VStr "b")]]
                              [("data", VList [VDict [("id", VStr "a")];
                                               VDict [("name", VStr "x")];
                                               VDict [("id", VStr "b")]])]))
                (or_intror (ex_intro _ [("name", VStr "x")] (conj eq_refl eq_refl)))
                eq_refl)
      | reflexivity].
  - etransitivity;
      [exact (proj2 (proj2 (extract_ignores_other_elements (RT := runtime) (VInt 3)
                              [VDict [("id", VStr "a")]] [VDict [("name", VStr "b")]]
                              [("models", VList [VDict [("id", VStr "a")]; VInt 3;
                                                 VDict [("name", VStr "b")]])]))
                eq_refl
                (fun l => ltac:(discriminate))
                eq_refl)
      | reflexivity].
Defined.

Lemma pick_model_member_witness :
  _pick_model (RT := runtime) [] "llama3" = None /\
  In "b" ["a"; "b"].
Proof.
  split.
  - apply (proj2 (proj1 (pick_model_member (RT := runtime) [] "llama3"))). reflexivity.
  - apply (proj2 (pick_model_member (RT := runtime) ["a"; "b"] "B") "b"). reflexivity.
Defined.

Lemma pick_model_hint_case_witness :
  _pick_model (RT := runtime) ["mistral"; "Llama3:8B"] "LLAMA3"
  = _pick_model (RT := runtime) ["mistral"; "Llama3:8B"] "llama3".
Proof.
  apply (pick_model_hint_case (RT := runtime)); [discriminate | discriminate | reflexivity].
Defined.

(** The four calls of the run that falls back to the legacy endpoint. *)
Lemma notes_mirror_calls_witness :
  map (exchange_note (RT := runtime) (NW := legacy_net))
    (snd (_best_effort_probe (RT := runtime) (NW := legacy_net) host 8080 api_key hint 3 0%nat))
  = map Some
      [ "http://127.0.0.1:8080/api/models -> 404";
        "http://127.0.0.1:8080/v1/models -> 200";
        "http://127.0.0.1:8080/v1/chat/completions -> 404";
        "http://127.0.0.1:8080/v1/completions -> 200" ] /\
  List.length
    [ "http://127.0.0.1:8080/api/models -> 404";
      "http://127.0.0.1:8080/v1/models -> 200";
      "http://127.0.0.1:8080/v1/chat/completions -> 404";
      "http://127.0.0.1:8080/v1/completions -> 200" ]
  = List.length
      (snd (_best_effort_probe (RT := runtime) (NW := legacy_net) host 8080 api_key hint 3 0%nat)).
Proof.
  apply (proj2 (notes_mirror_calls (RT := runtime) (NW := legacy_net)
                  host 8080 api_key hint 3 0%nat)
           (Some (mkProbeResult "http://127.0.0.1:8080/v1" "llama3:latest" true))).
  vm_compute. reflexivity.
Defined.

Lemma result_flag_sound_witness :
  "llama3:latest" <> EmptyString /\
  exists (oc2 : UrlopenOutcome) (resp2 : HttpResponse),
    http_result (RT := runtime) oc2 = Returned resp2 /\
    (status resp2 <> 200 \/ _try_json (RT := runtime) resp2 = Returned VNone).
Proof.
  destruct (result_flag_sound (RT := runtime) (NW := legacy_net)
              host 8080 api_key hint 3 0%nat 4%nat
              (mkProbeResult "http://127.0.0.1:8080/v1" "llama3:latest" true)
              [ "http://127.0.0.1:8080/api/models -> 404";
                "http://127.0.0.1:8080/v1/models -> 200";
                "http://127.0.0.1:8080/v1/chat/completions -> 404";
                "http://127.0.0.1:8080/v1/completions -> 200" ]
              (snd (_best_effort_probe (RT := runtime) (NW := legacy_net)
                      host 8080 api_key hint 3 0%nat))
              ltac:(vm_compute; reflexivity))
    as [Hne [t0 [oc1 [oc2 [resp2 [H2 [Hfail _]]]]]]].
  split; [exact Hne|]. exists oc2, resp2. split; assumption.
Defined.

(** A server without routes: all five candidates are listed. *)
Lemma candidates_listed_in_order_witness :
  listings (snd (_best_effort_probe (RT := runtime) (NW := bare_net) host 8080 api_key hint 3 0%nat))
  = map (fun b => models_request (NW := bare_net) b api_key 3) (_candidate_api_bases host 8080).
Proof.
  destruct (candidates_listed_in_order (RT := runtime) (NW := bare_net)
              host 8080 api_key hint 3 0%nat)
    as [pre [post [Hb [Hne [Hl Hnone]]]]].
  rewrite (Hnone [ "http://127.0.0.1:8080/api/models -> 404";
                   "http://127.0.0.1:8080/v1/models -> 404";
                   "http://127.0.0.1:8080/api/openai/v1/models -> 404";
                   "http://127.0.0.1:8080/api/openai/v1/models -> 404";
                   "http://127.0.0.1:8080/models -> 404" ]
             ltac:(vm_compute; reflexivity)), app_nil_r in Hb.
  rewrite Hl, Hb. reflexivity.
Defined.

(** The test server answers from its routes alone. *)
Lemma duplicate_candidate_redundant_witness :
  found (_best_effort_probe (RT := runtime) (NW := legacy_net) host 8080 api_key hint 3 0%nat)
  = found (probe_loop (RT := runtime) (NW := legacy_net)
             [ "http://" ++ host ++ ":" ++ str_of_int 8080 ++ "/api";
               "http://" ++ host ++ ":" ++ str_of_int 8080 ++ "/v1";
               "http://" ++ host ++ ":" ++ str_of_int 8080 ++ "/api/openai/v1";
               "http://" ++ host ++ ":" ++ str_of_int 8080 ]
             api_key hint 3 [] 0%nat).
Proof.
  apply (duplicate_candidate_redundant (RT := runtime) (NW := legacy_net)).
  intros req w w'. reflexivity.
Defined.

(** The shell has set the API key; the file assigns it too, and the host
    twice. *)
Lemma load_env_keeps_existing_witness :
  env_mem (Environ := SampleEnv.environ) "PROBE_API_KEY"
    [ ("PROBE_API_KEY", "sk-shell"); ("HOME", "/root");
      ("PROBE_HOST", "10.0.0.5"); ("PROBE_DEBUG", "yes") ] = true /\
  env_get (Environ := SampleEnv.environ) "PROBE_API_KEY"
    [ ("PROBE_API_KEY", "sk-shell"); ("HOME", "/root");
      ("PROBE_HOST", "10.0.0.5"); ("PROBE_DEBUG", "yes") ]
  = env_get (Environ := SampleEnv.environ) "PROBE_API_KEY" SampleEnv.shell_env.
Proof.
  apply (load_env_keeps_existing (EV := SampleEnv.environ) SampleEnv.strip
           sample_setitem_keeps (Some SampleEnv.dotenv) SampleEnv.shell_env).
  - vm_compute. reflexivity.
  - reflexivity.
Defined.

Lemma load_env_first_wins_witness :
  env_get (Environ := SampleEnv.environ) "PROBE_HOST"
    [ ("PROBE_API_KEY", "sk-shell"); ("HOME", "/root");
      ("PROBE_HOST", "10.0.0.5"); ("PROBE_DEBUG", "yes") ]
  = Some "10.0.0.5".
Proof.
  apply (load_env_first_wins (EV := SampleEnv.environ) SampleEnv.strip
           sample_setitem_keeps sample_setitem_stores
           ("PROBE_HOST = 10.0.0.5" ++ SampleEnv.newline)
           (skipn 3 SampleEnv.dotenv) SampleEnv.shell_env).
  - vm_compute. reflexivity.
  - reflexivity.
  - vm_compute. reflexivity.
Defined.

End MoreSampleRuns.
